(** * Dummy-value inference and arrange-block generation for the xUnit
      skeleton generator (generate_unit_tests_dotnet_core.py)

    A shallow embedding of [parse_generic_type], [generic_to_string],
    [infer_dummy_value], [compute_arrange] and [generate_test_class].

    Modelling conventions.
    - A Python [str] is a [string]; a character is a code point below 256,
      so [str.strip] and [str.lower] are the Python ones restricted to
      that range.
    - The two functions that recurse on text they computed themselves
      ([parse_generic_type] on the split arguments, [infer_dummy_value] on
      a reconstructed type string) take a bound on the nesting of their
      calls, as the interpreter's recursion limit is one; [None] is the
      [RecursionError] raised when the bound is reached.  The entry points
      are given one more than the length of their input, which is enough
      for every input.
    - [depth] in the argument splitter is a Python [int], hence [Z]. *)

From Stdlib Require Import String Ascii List ZArith Lia Bool Arith DecimalString DecimalNat.
Import ListNotations.
Open Scope string_scope.
Open Scope nat_scope.

(** ** Python string primitives *)

Module Py.

(** [str.isspace] for one character (code points below 256). *)
Definition isspace (c : ascii) : bool :=
  let n := nat_of_ascii c in
  ((9 <=? n) && (n <=? 13)) || ((28 <=? n) && (n <=? 32))
  || (n =? 133) || (n =? 160).

(** [str.lower] for one character (code points below 256). *)
Definition lower_char (c : ascii) : ascii :=
  let n := nat_of_ascii c in
  if ((65 <=? n) && (n <=? 90))
     || ((192 <=? n) && (n <=? 222) && negb (n =? 215))
  then ascii_of_nat (n + 32) else c.

Fixpoint lower (s : string) : string :=
  match s with
  | EmptyString => EmptyString
  | String c r => String (lower_char c) (lower r)
  end.

(** [s.replace(' ', '')] *)
Fixpoint remove_spaces (s : string) : string :=
  match s with
  | EmptyString => EmptyString
  | String c r =>
      if Ascii.eqb c " " then remove_spaces r else String c (remove_spaces r)
  end.

Fixpoint lstrip (s : string) : string :=
  match s with
  | EmptyString => EmptyString
  | String c r => if isspace c then lstrip r else s
  end.

Fixpoint rstrip (s : string) : string :=
  match s with
  | EmptyString => EmptyString
  | String c r =>
      match rstrip r with
      | EmptyString => if isspace c then EmptyString else String c EmptyString
      | r' => String c r'
      end
  end.

(** [s.strip()] *)
Definition strip (s : string) : string := rstrip (lstrip s).

(** [s.find(c)]; Python's [-1] is [None]. *)
Fixpoint find (c : ascii) (s : string) : option nat :=
  match s with
  | EmptyString => None
  | String a r => if Ascii.eqb a c then Some 0 else option_map S (find c r)
  end.

(** [s[a:b]] for non-negative bounds. *)
Definition slice (a b : nat) (s : string) : string := substring a (b - a) s.

(** [s[a:]] *)
Definition slice_from (a : nat) (s : string) : string :=
  slice a (String.length s) s.

(** [s[a:-k]]: the end bound counts from the end of the string. *)
Definition slice_to_end_minus (a k : nat) (s : string) : string :=
  slice a (String.length s - k) s.

Fixpoint startswith (s p : string) : bool :=
  match p, s with
  | EmptyString, _ => true
  | String a p', String b s' => Ascii.eqb a b && startswith s' p'
  | String _ _, EmptyString => false
  end.

Definition endswith (s p : string) : bool :=
  (String.length p <=? String.length s)
  && String.eqb (slice_from (String.length s - String.length p) s) p.

(** [sep.join(l)] *)
Fixpoint join (sep : string) (l : list string) : string :=
  match l with
  | [] => EmptyString
  | [x] => x
  | x :: r => x ++ sep ++ join sep r
  end.

(** [str(i)] for a non-negative [int]. *)
Definition str_of_nat (i : nat) : string :=
  NilZero.string_of_uint (Nat.to_uint i).

(** A truthy string is a non-empty one. *)
Definition truthy (s : string) : bool :=
  match s with EmptyString => false | _ => true end.

Definition newline : string := String (ascii_of_nat 10) EmptyString.
Definition dquote : string := String (ascii_of_nat 34) EmptyString.

(** [re.search('^' + lit + '$', s)] for a literal [lit] without
    metacharacters: [$] matches at the very end and also just before a
    final newline. *)
Definition re_search_anchored (lit s : string) : bool :=
  String.eqb s lit || String.eqb s (lit ++ newline).

(** [s.replace(old, '')] for a non-empty [old]: the occurrences are found
    from the left and do not overlap; [skip] counts the characters of the
    current occurrence still to drop. *)
Fixpoint remove_all_from (old : string) (skip : nat) (s : string) : string :=
  match s with
  | EmptyString => EmptyString
  | String c r =>
      match skip with
      | S k => remove_all_from old k r
      | 0 =>
          if startswith s old
          then remove_all_from old (String.length old - 1) r
          else String c (remove_all_from old 0 r)
      end
  end.

Definition remove_all (old s : string) : string := remove_all_from old 0 s.

End Py.

(** The option monad: [None] is an exhausted recursion budget. *)
Definition bind {A B} (m : option A) (k : A -> option B) : option B :=
  match m with Some a => k a | None => None end.

Notation "x <- m ;; k" := (bind m (fun x => k))
  (at level 61, m at next level, right associativity).

Fixpoint mapM {A B} (f : A -> option B) (l : list A) : option (list B) :=
  match l with
  | [] => Some []
  | x :: r => y <- f x ;; ys <- mapM f r ;; Some (y :: ys)
  end.

(** ** The type-string parser and reconstructor *)

(** The pair [(base, parsed_args)] returned by [parse_generic_type]. *)
#[warnings="-register-all"]
Inductive TypeDescriptor : Type :=
| TD (base : string) (args : list TypeDescriptor).

Definition td_base (d : TypeDescriptor) : string :=
  match d with TD b _ => b end.
Definition td_args (d : TypeDescriptor) : list TypeDescriptor :=
  match d with TD _ a => a end.

(** The [for char in args_str] loop of [parse_generic_type]; the state is
    [(args, current_arg, depth)]. *)
Fixpoint split_loop (args_str : string) (args : list string)
         (current_arg : string) (depth : Z) : list string * string :=
  match args_str with
  | EmptyString => (args, current_arg)
  | String char r =>
      if Ascii.eqb char "<" then
        split_loop r args (current_arg ++ String char "") (depth + 1)
      else if Ascii.eqb char ">" then
        split_loop r args (current_arg ++ String char "") (depth - 1)
      else if Ascii.eqb char "," && (depth =? 0)%Z then
        split_loop r (args ++ [Py.strip current_arg])%list "" depth
      else
        split_loop r args (current_arg ++ String char "") depth
  end.

(** The loop followed by [if current_arg: args.append(current_arg.strip())]. *)
Definition split_args (args_str : string) : list string :=
  let '(args, current_arg) := split_loop args_str [] "" 0 in
  if Py.truthy current_arg then (args ++ [Py.strip current_arg])%list else args.

(** The body of [parse_generic_type]; [self] is the recursive call. *)
Definition parse_body (self : string -> option TypeDescriptor)
           (type_str : string) : option TypeDescriptor :=
  let type_str := Py.remove_spaces type_str in
  match Py.find "<" type_str with
  | None => Some (TD type_str [])
  | Some lt_pos =>
      let base := Py.slice 0 lt_pos type_str in
      let args_str := Py.slice_to_end_minus (lt_pos + 1) 1 type_str in
      let args := split_args args_str in
      parsed_args <- mapM self args ;;
      Some (TD base parsed_args)
  end.

Fixpoint parse_fuel (fuel : nat) : string -> option TypeDescriptor :=
  match fuel with
  | 0 => fun _ => None
  | S fuel' => parse_body (parse_fuel fuel')
  end.

Definition parse_generic_type (type_str : string) : option TypeDescriptor :=
  parse_fuel (S (String.length type_str)) type_str.

Fixpoint generic_to_string (d : TypeDescriptor) : string :=
  match d with
  | TD base [] => base
  | TD base args =>
      base ++ "<" ++ Py.join ", " (map generic_to_string args) ++ ">"
  end.

(** ** Dummy-value inference *)

(** The table [dummy_patterns]; an entry [(lit, value)] stands for the
    regular expression [^lit$] and its value. *)
Definition dummy_patterns : list (string * string) :=
  [ ("int", "0"); ("long", "0L"); ("float", "0.0f"); ("double", "0.0");
    ("bool", "false"); ("string", Py.dquote ++ Py.dquote); ("decimal", "0m");
    ("char", "'a'"); ("byte", "0"); ("short", "0"); ("sbyte", "0");
    ("ushort", "0"); ("uint", "0u"); ("ulong", "0UL");
    ("datetime", "DateTime.Now") ].

(** The final [for pattern, value in dummy_patterns] loop and the default
    [return 'null']. *)
Fixpoint first_match (patterns : list (string * string)) (type_lower : string)
  : string :=
  match patterns with
  | [] => "null"
  | (pattern, value) :: rest =>
      if Py.re_search_anchored pattern type_lower then value
      else first_match rest type_lower
  end.

Definition known_list_bases : list string :=
  ["list"; "ilist"; "icollection"; "ienumerable"].

(** The body of [infer_dummy_value]; [self] is the recursive call. *)
Definition infer_body (self : string -> option string) (type_name : string)
  : option string :=
  let type_str := Py.remove_spaces (Py.strip type_name) in
  if Py.endswith type_str "[]" then
    let elem_str := Py.slice_to_end_minus 0 2 type_str in
    elem_parsed <- parse_generic_type elem_str ;;
    let elem_type_str := generic_to_string elem_parsed in
    elem_dummy <- self elem_type_str ;;
    if String.eqb elem_dummy "null"
    then Some ("new " ++ type_str ++ " { }")
    else Some ("new " ++ type_str ++ " { " ++ elem_dummy ++ " }")
  else
    parsed <- parse_generic_type type_str ;;
    let base := td_base parsed in
    let generics := td_args parsed in
    let type_lower := Py.lower base in
    let non_generic := Some (first_match dummy_patterns type_lower) in
    match generics with
    | [] => non_generic
    | inner_parsed :: _ =>
        let full_type := generic_to_string (TD base generics) in
        if existsb (String.eqb type_lower) known_list_bases then
          Some ("new " ++ full_type ++ "()")
        else if String.eqb type_lower "dictionary" then
          if 2 <=? List.length generics
          then Some ("new " ++ full_type ++ "()")
          else Some "null"
        else if String.eqb type_lower "task" then
          if List.length generics =? 1 then
            let inner_type_str := generic_to_string inner_parsed in
            inner_dummy <- self inner_type_str ;;
            Some ("Task.FromResult(" ++ inner_dummy ++ ")")
          else Some "Task.CompletedTask"
        else non_generic
    end.

Fixpoint infer_fuel (fuel : nat) : string -> option string :=
  match fuel with
  | 0 => fun _ => None
  | S fuel' => infer_body (infer_fuel fuel')
  end.

Definition infer_dummy_value (type_name : string) : option string :=
  infer_fuel (S (String.length type_name)) type_name.

(** ** The arrange block *)

(** An extracted constructor, [{'params': [...]}]. *)
Record Constructor : Type := { params : list string }.

(** The scan of [max(iterable, key=...)] after its first item: a later
    item replaces the current one only when its key is strictly greater. *)
Fixpoint max_loop {A} (key : A -> nat) (best : A) (l : list A) : A :=
  match l with
  | [] => best
  | x :: r => if key best <? key x then max_loop key x r else max_loop key best r
  end.

(** The three lists the parameter loop of [compute_arrange] appends to. *)
Record ArrangeLists : Type :=
  { args_list : list string; mock_decls : list string; setup_lines : list string }.

Definition indent : string := "            ".

Definition mock_var (i : nat) : string := "mock" ++ Py.str_of_nat i.

Definition mock_decl (i : nat) (param_type : string) : string :=
  indent ++ "var " ++ mock_var i ++ " = new Mock<" ++ param_type ++ ">();".

Definition setup_line (i : nat) (param_type dummy_ret : string) : string :=
  indent ++ mock_var i ++ ".Setup(x => x.Get" ++ Py.slice_from 1 param_type
  ++ "Default(It.IsAny<object>())).Returns(" ++ dummy_ret
  ++ ");  // TODO: Customize setup for " ++ param_type.

(** [for i, param_type in enumerate(params)], started at index [i]. *)
Fixpoint arrange_loop (i : nat) (params : list string) (acc : ArrangeLists)
  : option ArrangeLists :=
  match params with
  | [] => Some acc
  | param_type :: rest =>
      if Py.startswith param_type "I" then
        dummy_ret <- infer_dummy_value param_type ;;
        arrange_loop (S i) rest
          {| args_list := (args_list acc ++ [(mock_var i ++ ".Object")%string])%list;
             mock_decls := (mock_decls acc ++ [mock_decl i param_type])%list;
             setup_lines :=
               (setup_lines acc ++ [setup_line i param_type dummy_ret])%list |}
      else
        dummy <- infer_dummy_value param_type ;;
        arrange_loop (S i) rest
          {| args_list := (args_list acc ++ [dummy])%list;
             mock_decls := mock_decls acc;
             setup_lines := setup_lines acc |}
  end.

Definition nonempty {A} (l : list A) : bool :=
  match l with [] => false | _ => true end.

Definition arrange_header : string := indent ++ "// Arrange" ++ Py.newline.

Definition target_line (class_name ctor_args : string) : string :=
  indent ++ "var target = new " ++ class_name ++ "(" ++ ctor_args ++ ");"
  ++ Py.newline.

Definition compute_arrange (class_name : string) (constructors : list Constructor)
  : option string :=
  let arrange := arrange_header in
  match constructors with
  | [] => Some (arrange ++ target_line class_name "")
  | first :: others =>
      let ctor := max_loop (fun c => List.length (params c)) first others in
      acc <- arrange_loop 0 (params ctor)
               {| args_list := []; mock_decls := []; setup_lines := [] |} ;;
      let arrange :=
        if nonempty (mock_decls acc) then
          let arrange := arrange ++ Py.join Py.newline (mock_decls acc) ++ Py.newline in
          if nonempty (setup_lines acc)
          then arrange ++ Py.join Py.newline (setup_lines acc) ++ Py.newline
          else arrange
        else arrange in
      let ctor_args := Py.join ", " (args_list acc) in
      if Py.truthy ctor_args
      then Some (arrange ++ target_line class_name ctor_args)
      else Some (arrange ++ target_line class_name "")
  end.

(** ** The test class *)

(** An extracted method,
    [{'name': ..., 'params': [...], 'return_type': ..., 'is_async': ...}]. *)
Module Method.
Record t : Type :=
  { name : string; params : list string; return_type : string; is_async : bool }.
End Method.

Definition default_namespace : string := "YourProject.Tests".

(** The text [generate_test_class] starts from. *)
Definition class_header (namespace class_name : string) : string :=
  "using Xunit;" ++ Py.newline
  ++ "using Moq;" ++ Py.newline
  ++ "using System.Threading.Tasks;" ++ Py.newline
  ++ "using " ++ Py.remove_all ".Tests" namespace
  ++ ";  // Adjust namespace as needed" ++ Py.newline
  ++ Py.newline
  ++ "namespace " ++ namespace ++ Py.newline
  ++ "{" ++ Py.newline
  ++ "    public class " ++ class_name ++ "Tests" ++ Py.newline
  ++ "    {" ++ Py.newline.

(** [return_type != 'void' and not is_task_void], where [is_task_void]
    holds for a parsed return type with base [task] and no generic
    argument. *)
Definition has_return_value (return_type : string) : option bool :=
  parsed <- parse_generic_type return_type ;;
  let ret_base := td_base parsed in
  let ret_generics := td_args parsed in
  let is_task_void :=
    String.eqb (Py.lower ret_base) "task" && (List.length ret_generics =? 0) in
  Some (negb (String.eqb return_type "void") && negb is_task_void).

(** The body of the loop over the methods: the text of one test method. *)
Definition test_method (arrange_str : string) (method : Method.t)
  : option string :=
  let method_name := Method.name method in
  let params := Method.params method in
  dummies <- mapM infer_dummy_value params ;;
  let args := Py.join ", " dummies in
  let call_base :=
    if nonempty params
    then "target." ++ method_name ++ "(" ++ args ++ ")"
    else "target." ++ method_name ++ "()" in
  let is_async := Method.is_async method in
  let return_type := Method.return_type method in
  has_return_value <- has_return_value return_type ;;
  let sig := "        [Fact]" ++ Py.newline in
  let sig :=
    if is_async
    then sig ++ "        public async Task " ++ method_name
         ++ "_ShouldWorkWithDefaults()" ++ Py.newline ++ "        {" ++ Py.newline
    else sig ++ "        public void " ++ method_name
         ++ "_ShouldWorkWithDefaults()" ++ Py.newline ++ "        {" ++ Py.newline in
  let act := "            // Act" ++ Py.newline in
  let call_str := if is_async then "await " ++ call_base else call_base in
  let '(act, assertion) :=
    if has_return_value
    then (act ++ "            var actual = " ++ call_str ++ ";" ++ Py.newline,
          "            Assert.NotNull(actual);  // TODO: Refine expected value")
    else (act ++ "            " ++ call_str ++ ";" ++ Py.newline,
          "            // TODO: Add assertions for side effects") in
  Some (sig ++ arrange_str ++ act ++ Py.newline ++ Py.newline
        ++ "            // Assert" ++ Py.newline ++ assertion ++ Py.newline
        ++ "        }" ++ Py.newline).

(** [for method in methods: ... test_class += test_method]. *)
Fixpoint methods_loop (arrange_str : string) (methods : list Method.t)
         (test_class : string) : option string :=
  match methods with
  | [] => Some test_class
  | method :: rest =>
      text <- test_method arrange_str method ;;
      methods_loop arrange_str rest (test_class ++ text)
  end.

Definition generate_test_class (class_name : string) (methods : list Method.t)
           (constructors : list Constructor) (namespace : string)
  : option string :=
  arrange_str <- compute_arrange class_name constructors ;;
  test_class <- methods_loop arrange_str methods
                  (class_header namespace class_name) ;;
  Some (test_class ++ "    }" ++ Py.newline ++ "}").

(** ** Notions used to state the properties *)

(** The measure on which [infer_dummy_value] recurses: the length of
    its [type_str]. *)
Definition type_str_length (type_name : string) : nat :=
  String.length (Py.remove_spaces (Py.strip type_name)).

(** The number of characters in a list of strings. *)
Fixpoint total_len (l : list string) : nat :=
  match l with
  | [] => 0
  | x :: r => String.length x + total_len r
  end.

(** Every character of the string satisfies [p]. *)
Fixpoint all_chars (p : ascii -> bool) (s : string) : bool :=
  match s with
  | EmptyString => true
  | String c r => p c && all_chars p r
  end.

(** A character that [strip] does not remove. *)
Definition not_space (c : ascii) : bool := negb (Py.isspace c).

(** A character of a base name: no whitespace, no bracket, no comma. *)
Definition name_char (c : ascii) : bool :=
  not_space c && negb (Ascii.eqb c "<") && negb (Ascii.eqb c ">")
  && negb (Ascii.eqb c ",").

(** A base name: non-empty and made of name characters. *)
Definition wf_base (base : string) : bool :=
  Py.truthy base && all_chars name_char base.

(** A descriptor all of whose base names are non-empty names. *)
Fixpoint wf_descriptor (d : TypeDescriptor) : bool :=
  match d with
  | TD base args => wf_base base && forallb wf_descriptor args
  end.

(** Angle brackets are balanced: the nesting depth never drops below zero
    and is zero at the end. *)
Fixpoint balanced_from (depth : nat) (s : string) : bool :=
  match s with
  | EmptyString => depth =? 0
  | String c r =>
      if Ascii.eqb c "<" then balanced_from (S depth) r
      else if Ascii.eqb c ">" then
        match depth with
        | 0 => false
        | S depth' => balanced_from depth' r
        end
      else balanced_from depth r
  end.

(** Balanced, read from depth zero. *)
Definition balanced (s : string) : bool := balanced_from 0 s.

(** The text of a descriptor without its spaces. *)
Definition compact (d : TypeDescriptor) : string :=
  Py.remove_spaces (generic_to_string d).

(** A whole argument is read without a split and leaves the depth as it
    found it. *)
Definition scans (text : string) : Prop :=
  forall rest args cur depth, (0 <= depth)%Z ->
    split_loop (text ++ rest) args cur depth
    = split_loop rest args (cur ++ text) depth.

(** The interface heuristic: the type text starts with a capital I. *)
Definition is_interface (param_type : string) : bool :=
  Py.startswith param_type "I".

(** The lines of the arrange block, written out: the declaration of the
    mock for the parameter at position [k], its placeholder setup call,
    and the constructor argument at that position. *)
Definition expected_mock_decl (k : nat) (p : string) : string :=
  "            var mock" ++ Py.str_of_nat k ++ " = new Mock<" ++ p ++ ">();".

Definition expected_setup (k : nat) (p d : string) : string :=
  "            mock" ++ Py.str_of_nat k ++ ".Setup(x => x.Get"
  ++ Py.slice_from 1 p ++ "Default(It.IsAny<object>())).Returns(" ++ d
  ++ ");  // TODO: Customize setup for " ++ p.

Definition expected_arg (k : nat) (p d : string) : string :=
  if is_interface p then "mock" ++ Py.str_of_nat k ++ ".Object" else d.

(** The constructor arguments, mock declarations and setup lines that the
    parameters [ps], numbered from [i] and with dummy values [ds], call
    for. *)
Fixpoint args_from (i : nat) (ps ds : list string) : list string :=
  match ps, ds with
  | p :: ps', d :: ds' => expected_arg i p d :: args_from (S i) ps' ds'
  | _, _ => []
  end.

(** One mock declaration per interface-style parameter. *)
Fixpoint decls_from (i : nat) (ps : list string) : list string :=
  match ps with
  | [] => []
  | p :: ps' =>
      if is_interface p then expected_mock_decl i p :: decls_from (S i) ps'
      else decls_from (S i) ps'
  end.

(** One setup line per interface-style parameter. *)
Fixpoint setups_from (i : nat) (ps ds : list string) : list string :=
  match ps, ds with
  | p :: ps', d :: ds' =>
      if is_interface p then expected_setup i p d :: setups_from (S i) ps' ds'
      else setups_from (S i) ps' ds'
  | _, _ => []
  end.

(** The mock declarations followed by the setup lines, one per line. *)
Definition mock_block (decls setups : list string) : string :=
  match decls with
  | [] => ""
  | _ => Py.join Py.newline decls ++ Py.newline
         ++ Py.join Py.newline setups ++ Py.newline
  end.

(** The arrange block for a constructor with parameters [ps] whose dummy
    values are [ds]: the header line, the mock lines, the target line. *)
Definition expected_arrange (class_name : string) (ps ds : list string)
  : string :=
  "            // Arrange" ++ Py.newline
  ++ mock_block (decls_from 0 ps) (setups_from 0 ps ds)
  ++ "            var target = new " ++ class_name ++ "("
  ++ Py.join ", " (args_from 0 ps ds) ++ ");" ++ Py.newline.

(** The text of a test method, written out: [captured] tells whether the
    result of the call is kept and asserted. *)
Definition expected_test_method (arrange_str : string) (method : Method.t)
           (ds : list string) (captured : bool) : string :=
  let call :=
    (if Method.is_async method then "await " else "")
    ++ "target." ++ Method.name method ++ "(" ++ Py.join ", " ds ++ ")" in
  "        [Fact]" ++ Py.newline
  ++ "        public "
  ++ (if Method.is_async method then "async Task " else "void ")
  ++ Method.name method ++ "_ShouldWorkWithDefaults()" ++ Py.newline
  ++ "        {" ++ Py.newline
  ++ arrange_str
  ++ "            // Act" ++ Py.newline
  ++ (if captured then "            var actual = " else "            ")
  ++ call ++ ";" ++ Py.newline
  ++ Py.newline ++ Py.newline
  ++ "            // Assert" ++ Py.newline
  ++ (if captured
      then "            Assert.NotNull(actual);  // TODO: Refine expected value"
      else "            // TODO: Add assertions for side effects")
  ++ Py.newline
  ++ "        }" ++ Py.newline.

(** The type [Task<Task<...<int>...>>], nested [n] deep. *)
Fixpoint nested_task (n : nat) : TypeDescriptor :=
  match n with
  | 0 => TD "int" []
  | S k => TD "Task" [nested_task k]
  end.

(** Every whitespace character of the text is a plain space. *)
Definition only_spaces (s : string) : bool :=
  all_chars (fun c => not_space c || Ascii.eqb c " ") s.

(** The names in the table of primitive patterns. *)
Definition primitive_names : list string := map fst dummy_patterns.

(** The number of parameters the interface heuristic picks. *)
Definition interface_count (ps : list string) : nat :=
  List.length (filter is_interface ps).

(** ** Facts about the string primitives *)

Lemma str_app_nil_r (s : string) : s ++ "" = s.
Proof. induction s; simpl; congruence. Qed.

Lemma str_app_assoc (a b c : string) : (a ++ b) ++ c = a ++ b ++ c.
Proof. induction a; simpl; congruence. Qed.

Lemma str_length_app (a b : string) :
  String.length (a ++ b) = String.length a + String.length b.
Proof. induction a; simpl; congruence. Qed.

Lemma substring_length_le (a m : nat) (s : string) :
  String.length (substring a m s) <= m
  /\ String.length (substring a m s) <= String.length s - a.
Proof.
  revert a m; induction s as [|c r IH]; intros a m.
  - destruct a, m; simpl; lia.
  - destruct a as [|a].
    + destruct m as [|m]; simpl; [lia|]. specialize (IH 0 m). simpl in IH. lia.
    + simpl. specialize (IH a m). lia.
Qed.

Lemma substring_prefix_app (a b : string) :
  substring 0 (String.length a) (a ++ b) = a.
Proof.
  induction a as [|c r IH]; simpl.
  - destruct b; reflexivity.
  - now rewrite IH.
Qed.

Lemma substring_skip_app (a b : string) (n m : nat) :
  substring (String.length a + n) m (a ++ b) = substring n m b.
Proof. induction a as [|c r IH]; simpl; auto. Qed.

Lemma remove_spaces_app (a b : string) :
  Py.remove_spaces (a ++ b) = Py.remove_spaces a ++ Py.remove_spaces b.
Proof.
  induction a as [|c r IH]; simpl; auto.
  destruct (Ascii.eqb c " "); simpl; congruence.
Qed.

Lemma remove_spaces_length (s : string) :
  String.length (Py.remove_spaces s) <= String.length s.
Proof.
  induction s as [|c r IH]; simpl; auto.
  destruct (Ascii.eqb c " "); simpl; lia.
Qed.

Lemma remove_spaces_idem (s : string) :
  Py.remove_spaces (Py.remove_spaces s) = Py.remove_spaces s.
Proof.
  induction s as [|c r IH]; simpl; auto.
  destruct (Ascii.eqb c " ") eqn:E; simpl; auto. now rewrite E, IH.
Qed.

Lemma lstrip_length (s : string) : String.length (Py.lstrip s) <= String.length s.
Proof. induction s as [|c r IH]; simpl; auto. destruct (Py.isspace c); simpl; lia. Qed.

Lemma rstrip_length (s : string) : String.length (Py.rstrip s) <= String.length s.
Proof.
  induction s as [|c r IH]; simpl; auto.
  destruct (Py.rstrip r); [destruct (Py.isspace c)|]; simpl in *; lia.
Qed.

Lemma strip_length (s : string) : String.length (Py.strip s) <= String.length s.
Proof.
  unfold Py.strip. pose proof (rstrip_length (Py.lstrip s)).
  pose proof (lstrip_length s). lia.
Qed.

Lemma remove_spaces_lstrip_length (s : string) :
  String.length (Py.remove_spaces (Py.lstrip s))
  <= String.length (Py.remove_spaces s).
Proof.
  induction s as [|c r IH]; simpl; auto.
  destruct (Py.isspace c); simpl; destruct (Ascii.eqb c " "); simpl; lia.
Qed.

Lemma remove_spaces_rstrip_length (s : string) :
  String.length (Py.remove_spaces (Py.rstrip s))
  <= String.length (Py.remove_spaces s).
Proof.
  induction s as [|c r IH]; simpl; auto.
  destruct (Py.rstrip r) as [|c' r'].
  - destruct (Py.isspace c); simpl; destruct (Ascii.eqb c " "); simpl; lia.
  - change (Py.remove_spaces (String c (String c' r')))
      with (if Ascii.eqb c " " then Py.remove_spaces (String c' r')
            else String c (Py.remove_spaces (String c' r'))).
    destruct (Ascii.eqb c " "); simpl in *; lia.
Qed.

Lemma type_str_length_le_rs (s : string) :
  type_str_length s <= String.length (Py.remove_spaces s).
Proof.
  unfold type_str_length, Py.strip.
  pose proof (remove_spaces_rstrip_length (Py.lstrip s)).
  pose proof (remove_spaces_lstrip_length s). lia.
Qed.

Lemma type_str_length_le (s : string) : type_str_length s <= String.length s.
Proof.
  pose proof (type_str_length_le_rs s). pose proof (remove_spaces_length s). lia.
Qed.

Lemma find_lt (c : ascii) (s : string) (n : nat) :
  Py.find c s = Some n -> n < String.length s.
Proof.
  revert n; induction s as [|a r IH]; simpl; intros n H; [discriminate|].
  destruct (Ascii.eqb a c).
  - inversion H; lia.
  - destruct (Py.find c r) as [k|]; simpl in H; [|discriminate].
    inversion H. specialize (IH k eq_refl). lia.
Qed.

Lemma substring_full (s : string) : substring 0 (String.length s) s = s.
Proof. induction s as [|c r IH]; simpl; congruence. Qed.

Lemma substring_suffix (s : string) :
  forall n, n <= String.length s ->
    exists p, s = p ++ substring n (String.length s - n) s /\ String.length p = n.
Proof.
  induction s as [|c r IH]; intros n Hn.
  - exists "". simpl in *. destruct n; [auto|lia].
  - destruct n as [|n].
    + exists "". rewrite Nat.sub_0_r, substring_full. auto.
    + simpl in Hn. destruct (IH n ltac:(lia)) as (p & Hp & Hl).
      exists (String c p). simpl. rewrite <- Hp. auto.
Qed.

Lemma endswith_app (x p : string) : Py.endswith (x ++ p) p = true.
Proof.
  unfold Py.endswith, Py.slice_from, Py.slice. rewrite str_length_app.
  apply andb_true_intro. split; [apply Nat.leb_le; lia|].
  replace (String.length x + String.length p - String.length p)
    with (String.length x + 0) by lia.
  rewrite substring_skip_app.
  replace (String.length x + String.length p - (String.length x + 0))
    with (String.length p) by lia.
  rewrite substring_full. apply String.eqb_refl.
Qed.

Lemma endswith_inv (s p : string) :
  Py.endswith s p = true -> exists x, s = x ++ p.
Proof.
  unfold Py.endswith, Py.slice_from, Py.slice. intros H.
  apply andb_prop in H as [Hl He]. apply Nat.leb_le in Hl.
  apply String.eqb_eq in He.
  destruct (substring_suffix s (String.length s - String.length p) ltac:(lia))
    as (x & Hx & _).
  exists x. rewrite He in Hx. exact Hx.
Qed.

Lemma str_app_inj_tail (a b : string) (c d : ascii) :
  a ++ String c "" = b ++ String d "" -> a = b /\ c = d.
Proof.
  revert b; induction a as [|x a IH]; intros [|y b] H; simpl in H.
  - inversion H; auto.
  - inversion H as [[Hx Hr]]. destruct b; discriminate.
  - inversion H as [[Hx Hr]]. destruct a; discriminate.
  - inversion H as [[Hx Hr]]. destruct (IH b Hr) as [-> ->]. auto.
Qed.

(** Text that ends in a closing bracket does not end in the array marker. *)
Lemma endswith_marker_close (x : string) : Py.endswith (x ++ ">") "[]" = false.
Proof.
  destruct (Py.endswith (x ++ ">") "[]") eqn:E; auto.
  apply endswith_inv in E as [y Hy].
  change (y ++ "[]") with (y ++ "[" ++ "]") in Hy.
  rewrite <- str_app_assoc in Hy.
  apply str_app_inj_tail in Hy as [_ Hc]. discriminate.
Qed.

(** ** The argument splitter never produces more text than it reads *)

Lemma total_len_app (l1 l2 : list string) :
  total_len (l1 ++ l2) = total_len l1 + total_len l2.
Proof. induction l1; simpl; lia. Qed.

Lemma total_len_In (x : string) (l : list string) :
  In x l -> String.length x <= total_len l.
Proof.
  induction l as [|y r IH]; simpl; [tauto|].
  intros [->|H]; [lia|]. specialize (IH H). lia.
Qed.

Lemma split_loop_weight (s : string) :
  forall args cur depth args' cur',
    split_loop s args cur depth = (args', cur') ->
    total_len args' + List.length args' + String.length cur'
    <= total_len args + List.length args + String.length cur + String.length s.
Proof.
  induction s as [|c r IH]; simpl; intros args cur depth args' cur' H.
  - inversion H; subst; lia.
  - destruct (Ascii.eqb c "<");
      [|destruct (Ascii.eqb c ">");
        [|destruct (Ascii.eqb c "," && (depth =? 0)%Z)]];
      apply IH in H;
      rewrite ?str_length_app, ?total_len_app, ?length_app in H; simpl in H;
      try lia.
    pose proof (strip_length cur). lia.
Qed.

Lemma split_args_bound (a : string) :
  total_len (split_args a) + (List.length (split_args a) - 1) <= String.length a
  /\ (split_args a <> [] -> 1 <= String.length a).
Proof.
  unfold split_args.
  destruct (split_loop a [] "" 0) as [args cur] eqn:E.
  apply split_loop_weight in E. simpl in E.
  destruct cur as [|c cur]; simpl.
  - split; [lia|]. destruct args; [congruence|]. simpl in *. lia.
  - rewrite total_len_app, length_app. simpl.
    pose proof (strip_length (String c cur)). simpl in *. split; [lia|].
    intros _. lia.
Qed.

Lemma split_args_In (a x : string) :
  In x (split_args a) -> String.length x < String.length a + 1
                         /\ 1 <= String.length a.
Proof.
  intros H. destruct (split_args_bound a) as [B1 B2].
  pose proof (total_len_In _ _ H).
  assert (split_args a <> []) by (intros E; rewrite E in H; inversion H).
  specialize (B2 H1). lia.
Qed.

(** ** Facts about [mapM] and [join] *)

Lemma bind_Some {A B} (m : option A) (k : A -> option B) (b : B) :
  bind m k = Some b <-> exists a, m = Some a /\ k a = Some b.
Proof.
  destruct m as [a|]; simpl; split.
  - intros H; exists a; auto.
  - intros (a' & E & H); inversion E; subst; auto.
  - discriminate.
  - intros (a' & E & _); discriminate.
Qed.

Lemma mapM_Forall2 {A B} (f : A -> option B) (l : list A) (ys : list B) :
  mapM f l = Some ys <-> Forall2 (fun x y => f x = Some y) l ys.
Proof.
  revert ys; induction l as [|x r IH]; intros ys; simpl.
  - split; intros H; inversion H; auto.
  - split.
    + intros H. apply bind_Some in H as (y & Ey & H).
      apply bind_Some in H as (ys' & Eys & H). inversion H; subst.
      constructor; auto. now apply IH.
    + intros H. inversion H as [|? y ? ys' Ey Hr]; subst.
      apply IH in Hr. rewrite Ey, Hr. reflexivity.
Qed.

Lemma mapM_ext_in {A B} (f g : A -> option B) (l : list A) :
  (forall x, In x l -> f x = g x) -> mapM f l = mapM g l.
Proof.
  induction l as [|x r IH]; simpl; intros H; auto.
  rewrite (H x) by auto. rewrite IH by auto. reflexivity.
Qed.

Lemma mapM_total {A B} (f : A -> option B) (l : list A) :
  (forall x, In x l -> exists y, f x = Some y) -> exists ys, mapM f l = Some ys.
Proof.
  induction l as [|x r IH]; simpl; intros H; eauto.
  destruct (H x) as [y Ey]; auto. destruct IH as [ys Eys]; auto.
  rewrite Ey, Eys. simpl. eauto.
Qed.

Lemma join_length (sep : string) (l : list string) :
  String.length (Py.join sep l)
  = total_len l + String.length sep * (List.length l - 1).
Proof.
  induction l as [|x [|y r] IH].
  - simpl; lia.
  - simpl; lia.
  - change (Py.join sep (x :: y :: r)) with (x ++ sep ++ Py.join sep (y :: r)).
    rewrite !str_length_app, IH. simpl. lia.
Qed.

Lemma remove_spaces_join (l : list string) :
  Py.remove_spaces (Py.join ", " l) = Py.join "," (map Py.remove_spaces l).
Proof.
  induction l as [|x [|y r] IH]; auto.
  change (Py.join ", " (x :: y :: r)) with (x ++ ", " ++ Py.join ", " (y :: r)).
  rewrite !remove_spaces_app, IH. reflexivity.
Qed.

(** The text of a descriptor once its spaces are removed. *)
Lemma remove_spaces_generic_to_string (base : string) (args : list TypeDescriptor) :
  Py.remove_spaces (generic_to_string (TD base args))
  = match args with
    | [] => Py.remove_spaces base
    | _ => Py.remove_spaces base ++ "<"
           ++ Py.join "," (map (fun a => Py.remove_spaces (generic_to_string a)) args)
           ++ ">"
    end.
Proof.
  destruct args as [|a r]; [reflexivity|].
  change (generic_to_string (TD base (a :: r)))
    with (base ++ "<" ++ Py.join ", " (map generic_to_string (a :: r)) ++ ">").
  rewrite !remove_spaces_app, remove_spaces_join, map_map. reflexivity.
Qed.

(** ** Termination of [parse_generic_type] *)

(** Every recursive call of the parser is on a strictly shorter string. *)
Lemma parse_args_shorter (t : string) (lt_pos : nat) (x : string) :
  Py.find "<" t = Some lt_pos ->
  In x (split_args (Py.slice_to_end_minus (lt_pos + 1) 1 t)) ->
  String.length x + lt_pos + 2 <= String.length t.
Proof.
  intros Hf Hin. apply split_args_In in Hin as [H1 H2].
  unfold Py.slice_to_end_minus, Py.slice in *.
  pose proof (proj1 (substring_length_le (lt_pos + 1)
                       (String.length t - 1 - (lt_pos + 1)) t)).
  apply find_lt in Hf. lia.
Qed.

Lemma parse_body_ext (f g : string -> option TypeDescriptor) (s : string) :
  (forall x, String.length x < String.length (Py.remove_spaces s) -> f x = g x) ->
  parse_body f s = parse_body g s.
Proof.
  intros H. unfold parse_body.
  destruct (Py.find "<" (Py.remove_spaces s)) as [lt_pos|] eqn:Hf; auto.
  rewrite (mapM_ext_in f g); auto.
  intros x Hin. apply H. pose proof (parse_args_shorter _ _ _ Hf Hin). lia.
Qed.

Lemma parse_body_total (f : string -> option TypeDescriptor) (s : string) :
  (forall x, String.length x < String.length (Py.remove_spaces s) ->
             exists d, f x = Some d) ->
  exists d, parse_body f s = Some d.
Proof.
  intros H. unfold parse_body.
  destruct (Py.find "<" (Py.remove_spaces s)) as [lt_pos|] eqn:Hf; eauto.
  destruct (mapM_total f
              (split_args (Py.slice_to_end_minus (lt_pos + 1) 1 (Py.remove_spaces s))))
    as [ys E].
  - intros x Hin. apply H. pose proof (parse_args_shorter _ _ _ Hf Hin). lia.
  - rewrite E. simpl. eauto.
Qed.

Lemma parse_fuel_total (n : nat) :
  forall s, String.length (Py.remove_spaces s) < n -> exists d, parse_fuel n s = Some d.
Proof.
  induction n as [|n IH]; intros s H; [lia|].
  simpl. apply parse_body_total. intros x Hx. apply IH.
  pose proof (remove_spaces_length x). lia.
Qed.

Lemma parse_fuel_indep (n : nat) :
  forall m s, String.length (Py.remove_spaces s) < n ->
              String.length (Py.remove_spaces s) < m ->
              parse_fuel n s = parse_fuel m s.
Proof.
  induction n as [|n IH]; intros m s Hn Hm; [lia|].
  destruct m as [|m]; [lia|]. simpl.
  apply parse_body_ext. intros x Hx.
  pose proof (remove_spaces_length x). apply IH; lia.
Qed.

Lemma parse_generic_type_total (s : string) :
  exists d, parse_generic_type s = Some d.
Proof.
  apply parse_fuel_total. pose proof (remove_spaces_length s). lia.
Qed.

(** The entry point satisfies the recursive equation of the source. *)
Lemma parse_generic_type_unfold (s : string) :
  parse_generic_type s = parse_body parse_generic_type s.
Proof.
  unfold parse_generic_type at 1. simpl.
  apply parse_body_ext. intros x Hx. unfold parse_generic_type.
  pose proof (remove_spaces_length x). pose proof (remove_spaces_length s).
  apply parse_fuel_indep; lia.
Qed.

(** Reconstruction after parsing never lengthens the text (spaces aside). *)
Lemma Forall2_total_len (args : list string) (ps : list TypeDescriptor) :
  Forall2 (fun x y =>
             String.length (Py.remove_spaces (generic_to_string y))
             <= String.length x) args ps ->
  total_len (map (fun a => Py.remove_spaces (generic_to_string a)) ps)
  <= total_len args
  /\ List.length ps = List.length args.
Proof. induction 1; simpl; lia. Qed.

Lemma parse_reconstruct_length (n : nat) :
  forall s d, String.length s < n -> parse_generic_type s = Some d ->
    String.length (Py.remove_spaces (generic_to_string d))
    <= String.length (Py.remove_spaces s).
Proof.
  induction n as [|n IH]; intros s d Hn H; [lia|].
  rewrite parse_generic_type_unfold in H. unfold parse_body in H.
  destruct (Py.find "<" (Py.remove_spaces s)) as [lt_pos|] eqn:Hf.
  - apply bind_Some in H as (ps & Eps & H). inversion H; subst d; clear H.
    set (t := Py.remove_spaces s) in *.
    set (args_str := Py.slice_to_end_minus (lt_pos + 1) 1 t) in *.
    assert (Hbase : String.length (Py.remove_spaces (Py.slice 0 lt_pos t)) <= lt_pos).
    { pose proof (remove_spaces_length (Py.slice 0 lt_pos t)).
      unfold Py.slice in *.
      pose proof (proj1 (substring_length_le 0 (lt_pos - 0) t)). lia. }
    apply mapM_Forall2 in Eps.
    assert (F : Forall2 (fun x y =>
               String.length (Py.remove_spaces (generic_to_string y))
               <= String.length x) (split_args args_str) ps).
    { pose proof (remove_spaces_length s) as Hs.
      assert (Hin : forall x, In x (split_args args_str) -> String.length x < n).
      { intros x Hx. pose proof (parse_args_shorter _ _ _ Hf Hx).
        fold t in Hs. lia. }
      clear - Eps IH Hin. induction Eps as [|x y l l' Hxy Hrest IHr]; constructor.
      - specialize (IH x y (Hin x (or_introl eq_refl)) Hxy).
        pose proof (remove_spaces_length x). lia.
      - apply IHr. intros z Hz. apply Hin. now right. }
    apply Forall2_total_len in F as [F1 F2].
    rewrite remove_spaces_generic_to_string.
    pose proof (find_lt _ _ _ Hf) as Hlt.
    destruct ps as [|p ps']; [lia|].
    rewrite !str_length_app, join_length, length_map. simpl String.length.
    destruct (split_args_bound args_str) as [B1 B2].
    assert (Hne : split_args args_str <> []).
    { intros E. rewrite E in F2. discriminate. }
    specialize (B2 Hne).
    assert (String.length args_str + lt_pos + 2 <= String.length t).
    { unfold args_str, Py.slice_to_end_minus, Py.slice in *.
      pose proof (proj1 (substring_length_le (lt_pos + 1)
                           (String.length t - 1 - (lt_pos + 1)) t)). lia. }
    lia.
  - inversion H; subst d. simpl. rewrite remove_spaces_idem. lia.
Qed.

Lemma parse_reconstruct_le (s : string) (d : TypeDescriptor) :
  parse_generic_type s = Some d ->
  String.length (Py.remove_spaces (generic_to_string d))
  <= String.length (Py.remove_spaces s).
Proof. apply (parse_reconstruct_length (S (String.length s))). lia. Qed.

(** ** Termination of [infer_dummy_value] *)

Lemma endswith_length (s p : string) :
  Py.endswith s p = true -> String.length p <= String.length s.
Proof.
  unfold Py.endswith. intros H. apply andb_prop in H as [H _].
  now apply Nat.leb_le in H.
Qed.

(** The array branch recurses on a shorter type string. *)
Lemma infer_array_smaller (type_str : string) (elem_parsed : TypeDescriptor) :
  Py.endswith type_str "[]" = true ->
  parse_generic_type (Py.slice_to_end_minus 0 2 type_str) = Some elem_parsed ->
  type_str_length (generic_to_string elem_parsed) < String.length type_str.
Proof.
  intros He Hp. apply endswith_length in He. simpl in He.
  apply parse_reconstruct_le in Hp.
  pose proof (type_str_length_le_rs (generic_to_string elem_parsed)).
  pose proof (remove_spaces_length (Py.slice_to_end_minus 0 2 type_str)).
  unfold Py.slice_to_end_minus, Py.slice in *.
  pose proof (proj1 (substring_length_le 0 (String.length type_str - 2 - 0) type_str)).
  lia.
Qed.

(** The task branch recurses on a shorter type string. *)
Lemma infer_task_smaller (type_str base : string) (inner : TypeDescriptor) :
  parse_generic_type type_str = Some (TD base [inner]) ->
  type_str_length (generic_to_string inner) < String.length type_str.
Proof.
  intros Hp. apply parse_reconstruct_le in Hp.
  rewrite remove_spaces_generic_to_string in Hp.
  rewrite !str_length_app in Hp. simpl in Hp.
  pose proof (type_str_length_le_rs (generic_to_string inner)).
  pose proof (remove_spaces_length type_str). lia.
Qed.

Lemma length_one_inv {A} (x : A) (l : list A) :
  (List.length (x :: l) =? 1) = true -> l = [].
Proof. destruct l; simpl; [reflexivity|discriminate]. Qed.

Lemma infer_body_ext (f g : string -> option string) (s : string) :
  (forall x, type_str_length x < type_str_length s -> f x = g x) ->
  infer_body f s = infer_body g s.
Proof.
  intros H. unfold infer_body. fold (type_str_length s) in H.
  unfold type_str_length in H at 2.
  set (type_str := Py.remove_spaces (Py.strip s)) in *.
  destruct (Py.endswith type_str "[]") eqn:He.
  - destruct (parse_generic_type (Py.slice_to_end_minus 0 2 type_str))
      as [ep|] eqn:Ep; cbn [bind]; auto.
    rewrite (H (generic_to_string ep)); auto.
    eapply infer_array_smaller; eauto.
  - destruct (parse_generic_type type_str) as [[base generics]|] eqn:Ep;
      cbn [bind td_base td_args]; auto.
    destruct generics as [|inner rest]; auto.
    destruct (existsb (String.eqb (Py.lower base)) known_list_bases); auto.
    destruct (String.eqb (Py.lower base) "dictionary"); auto.
    destruct (String.eqb (Py.lower base) "task"); auto.
    destruct (List.length (inner :: rest) =? 1) eqn:El; auto.
    apply length_one_inv in El. subst rest.
    rewrite (H (generic_to_string inner)); auto.
    eapply infer_task_smaller; eauto.
Qed.

Lemma infer_body_total (f : string -> option string) (s : string) :
  (forall x, type_str_length x < type_str_length s -> exists v, f x = Some v) ->
  exists v, infer_body f s = Some v.
Proof.
  intros H. unfold infer_body. unfold type_str_length in H at 2.
  set (type_str := Py.remove_spaces (Py.strip s)) in *.
  destruct (Py.endswith type_str "[]") eqn:He.
  - destruct (parse_generic_type_total (Py.slice_to_end_minus 0 2 type_str))
      as [ep Ep]. rewrite Ep. cbn [bind].
    destruct (H (generic_to_string ep)) as [v Ev].
    { eapply infer_array_smaller; eauto. }
    rewrite Ev. cbn [bind]. destruct (String.eqb v "null"); eauto.
  - destruct (parse_generic_type_total type_str) as [[base generics] Ep].
    rewrite Ep. cbn [bind td_base td_args].
    destruct generics as [|inner rest]; eauto.
    destruct (existsb (String.eqb (Py.lower base)) known_list_bases); eauto.
    destruct (String.eqb (Py.lower base) "dictionary").
    { destruct (2 <=? List.length (inner :: rest)); eauto. }
    destruct (String.eqb (Py.lower base) "task"); eauto.
    destruct (List.length (inner :: rest) =? 1) eqn:El; eauto.
    apply length_one_inv in El. subst rest.
    destruct (H (generic_to_string inner)) as [v Ev].
    { eapply infer_task_smaller; eauto. }
    rewrite Ev. cbn [bind]. eauto.
Qed.

Lemma infer_fuel_total (n : nat) :
  forall s, type_str_length s < n -> exists v, infer_fuel n s = Some v.
Proof.
  induction n as [|n IH]; intros s H; [lia|].
  simpl. apply infer_body_total. intros x Hx. apply IH. lia.
Qed.

Lemma infer_fuel_indep (n : nat) :
  forall m s, type_str_length s < n -> type_str_length s < m ->
              infer_fuel n s = infer_fuel m s.
Proof.
  induction n as [|n IH]; intros m s Hn Hm; [lia|].
  destruct m as [|m]; [lia|]. simpl.
  apply infer_body_ext. intros x Hx. apply IH; lia.
Qed.

Lemma infer_dummy_value_total (s : string) :
  exists v, infer_dummy_value s = Some v.
Proof. apply infer_fuel_total. pose proof (type_str_length_le s). lia. Qed.

(** The entry point satisfies the recursive equation of the source. *)
Lemma infer_dummy_value_unfold (s : string) :
  infer_dummy_value s = infer_body infer_dummy_value s.
Proof.
  unfold infer_dummy_value at 1. simpl.
  apply infer_body_ext. intros x Hx. unfold infer_dummy_value.
  pose proof (type_str_length_le x). pose proof (type_str_length_le s).
  apply infer_fuel_indep; lia.
Qed.

(** Only the normalised [type_str] of the argument matters. *)
Lemma infer_dummy_value_normalised (s s' : string) :
  Py.remove_spaces (Py.strip s) = Py.remove_spaces (Py.strip s') ->
  infer_dummy_value s = infer_dummy_value s'.
Proof.
  intros E. rewrite (infer_dummy_value_unfold s), (infer_dummy_value_unfold s').
  unfold infer_body. rewrite E. reflexivity.
Qed.

(** ** Well-formed type descriptions and the round trip *)

Lemma TypeDescriptor_nested_ind (P : TypeDescriptor -> Prop) :
  (forall base args, Forall P args -> P (TD base args)) -> forall d, P d.
Proof.
  intros H. fix IH 1. intros [base args]. apply H.
  induction args as [|a r IHr]; constructor; auto.
Qed.

Lemma all_chars_app (p : ascii -> bool) (a b : string) :
  all_chars p (a ++ b) = all_chars p a && all_chars p b.
Proof. induction a as [|c r IH]; simpl; auto. now rewrite IH, andb_assoc. Qed.

Lemma all_chars_weaken (p q : ascii -> bool) (s : string) :
  (forall c, p c = true -> q c = true) ->
  all_chars p s = true -> all_chars q s = true.
Proof.
  intros H. induction s as [|c r IH]; simpl; auto.
  intros E. apply andb_prop in E as [E1 E2]. rewrite (H _ E1), IH; auto.
Qed.

Lemma name_char_not_space (c : ascii) : name_char c = true -> not_space c = true.
Proof.
  unfold name_char. intros H.
  apply andb_prop in H as [H _]. apply andb_prop in H as [H _].
  now apply andb_prop in H as [H _].
Qed.

Lemma space_isspace (c : ascii) : Ascii.eqb c " " = true -> Py.isspace c = true.
Proof. intros H. apply Ascii.eqb_eq in H. subst. reflexivity. Qed.

Lemma remove_spaces_plain (s : string) :
  all_chars not_space s = true -> Py.remove_spaces s = s.
Proof.
  induction s as [|c r IH]; simpl; auto. intros H.
  apply andb_prop in H as [H1 H2]. unfold not_space in H1.
  destruct (Ascii.eqb c " ") eqn:E.
  - apply space_isspace in E. rewrite E in H1. discriminate.
  - now rewrite IH.
Qed.

Lemma rstrip_plain (s : string) : all_chars not_space s = true -> Py.rstrip s = s.
Proof.
  induction s as [|c r IH]; simpl; auto. intros H.
  apply andb_prop in H as [H1 H2]. rewrite (IH H2).
  unfold not_space in H1. destruct r; auto.
  destruct (Py.isspace c); [discriminate|reflexivity].
Qed.

Lemma strip_plain (s : string) : all_chars not_space s = true -> Py.strip s = s.
Proof.
  intros H. unfold Py.strip.
  assert (E : Py.lstrip s = s).
  { destruct s as [|c r]; auto. simpl in *. apply andb_prop in H as [H1 _].
    unfold not_space in H1. destruct (Py.isspace c); [discriminate|reflexivity]. }
  rewrite E. now apply rstrip_plain.
Qed.

Lemma all_chars_join (p : ascii -> bool) (sep : string) (l : list string) :
  all_chars p sep = true -> Forall (fun x => all_chars p x = true) l ->
  all_chars p (Py.join sep l) = true.
Proof.
  intros Hs H. induction H as [|x r Hx Hr IH]; auto.
  destruct r as [|y r']; auto.
  change (Py.join sep (x :: y :: r')) with (x ++ sep ++ Py.join sep (y :: r')).
  rewrite !all_chars_app, Hx, Hs, IH. reflexivity.
Qed.

Lemma wf_descriptor_inv (base : string) (args : list TypeDescriptor) :
  wf_descriptor (TD base args) = true ->
  base <> "" /\ all_chars name_char base = true
  /\ Forall (fun a => wf_descriptor a = true) args.
Proof.
  simpl. intros H. apply andb_prop in H as [H1 H2].
  unfold wf_base in H1. apply andb_prop in H1 as [H0 H1].
  repeat split; auto.
  - intros ->. discriminate.
  - apply Forall_forall. now apply forallb_forall.
Qed.

Lemma compact_TD (base : string) (args : list TypeDescriptor) :
  all_chars name_char base = true ->
  compact (TD base args)
  = match args with
    | [] => base
    | _ => base ++ "<" ++ Py.join "," (map compact args) ++ ">"
    end.
Proof.
  intros Hb. unfold compact at 1. rewrite remove_spaces_generic_to_string.
  rewrite remove_spaces_plain
    by (eapply all_chars_weaken; [apply name_char_not_space|exact Hb]).
  reflexivity.
Qed.

(** The compact text of a well-formed descriptor is non-empty and holds no
    whitespace, so [strip] and the removal of spaces leave it alone. *)
Lemma compact_plain (d : TypeDescriptor) :
  wf_descriptor d = true ->
  all_chars not_space (compact d) = true /\ compact d <> "".
Proof.
  induction d as [base args IH] using TypeDescriptor_nested_ind. intros Hwf.
  apply wf_descriptor_inv in Hwf as (Hne & Hb & Hargs).
  rewrite compact_TD by assumption.
  assert (Hp : all_chars not_space base = true)
    by (eapply all_chars_weaken; [apply name_char_not_space|exact Hb]).
  destruct args as [|a r].
  - split; assumption.
  - split.
    + rewrite !all_chars_app, Hp.
      rewrite all_chars_join; [reflexivity|reflexivity|].
      apply Forall_map. rewrite Forall_forall in *.
      intros x Hx. apply IH; auto.
    + destruct base; [congruence|discriminate].
Qed.

(** *** How the splitter reads well-formed text *)

Lemma split_loop_name (b : string) :
  all_chars name_char b = true ->
  forall rest args cur depth,
    split_loop (b ++ rest) args cur depth
    = split_loop rest args (cur ++ b) depth.
Proof.
  induction b as [|c r IH]; simpl; intros H rest args cur depth.
  - now rewrite str_app_nil_r.
  - apply andb_prop in H as [Hc Hr]. unfold name_char in Hc.
    apply andb_prop in Hc as [Hc H3]. apply andb_prop in Hc as [Hc H2].
    apply andb_prop in Hc as [_ H1].
    apply negb_true_iff in H1, H2, H3. rewrite H1, H2, H3. simpl.
    rewrite IH by assumption. rewrite str_app_assoc. reflexivity.
Qed.

Lemma split_loop_open (rest : string) args cur depth :
  split_loop ("<" ++ rest) args cur depth
  = split_loop rest args (cur ++ "<") (depth + 1).
Proof. reflexivity. Qed.

Lemma split_loop_close (rest : string) args cur depth :
  split_loop (">" ++ rest) args cur depth
  = split_loop rest args (cur ++ ">") (depth - 1).
Proof. reflexivity. Qed.

Lemma split_loop_comma_nested (rest : string) args cur depth :
  (1 <= depth)%Z ->
  split_loop ("," ++ rest) args cur depth
  = split_loop rest args (cur ++ ",") depth.
Proof.
  intros H. simpl. destruct (depth =? 0)%Z eqn:E; [apply Z.eqb_eq in E; lia|].
  reflexivity.
Qed.

Lemma split_loop_comma_top (rest : string) args cur :
  split_loop ("," ++ rest) args cur 0
  = split_loop rest (args ++ [Py.strip cur])%list "" 0.
Proof. reflexivity. Qed.

Lemma join_cons2 (sep x y : string) (r : list string) :
  Py.join sep (x :: y :: r) = x ++ sep ++ Py.join sep (y :: r).
Proof. reflexivity. Qed.

Lemma split_loop_inside (texts : list string) :
  Forall scans texts ->
  forall rest args cur depth, (1 <= depth)%Z ->
    split_loop (Py.join "," texts ++ rest) args cur depth
    = split_loop rest args (cur ++ Py.join "," texts) depth.
Proof.
  induction 1 as [|x r Hx Hr IH]; intros rest args cur depth Hd.
  - simpl. now rewrite str_app_nil_r.
  - destruct r as [|y r'].
    + simpl. apply Hx. lia.
    + rewrite join_cons2, !str_app_assoc. rewrite Hx by lia.
      rewrite split_loop_comma_nested by assumption.
      rewrite IH by assumption.
      rewrite !str_app_assoc. reflexivity.
Qed.

Lemma compact_scans (d : TypeDescriptor) :
  wf_descriptor d = true -> scans (compact d).
Proof.
  induction d as [base args IH] using TypeDescriptor_nested_ind. intros Hwf.
  apply wf_descriptor_inv in Hwf as (Hne & Hb & Hargs).
  rewrite compact_TD by assumption.
  destruct args as [|a r].
  - intros rest args cur depth _. now apply split_loop_name.
  - intros rest args cur depth Hd.
    assert (Hall : Forall scans (map compact (a :: r))).
    { apply Forall_map. rewrite Forall_forall in *. intros x Hx. apply IH; auto. }
    rewrite !str_app_assoc. rewrite split_loop_name by assumption.
    rewrite split_loop_open, split_loop_inside by (auto; lia).
    rewrite split_loop_close.
    replace (depth + 1 - 1)%Z with depth by lia.
    rewrite !str_app_assoc. reflexivity.
Qed.

(** At the top level the splitter cuts exactly at the separating commas. *)
Lemma split_loop_top (ds : list TypeDescriptor) :
  ds <> [] -> Forall (fun d => wf_descriptor d = true) ds ->
  forall args,
    (let '(args', cur) := split_loop (Py.join "," (map compact ds)) args "" 0 in
     if Py.truthy cur then (args' ++ [Py.strip cur])%list else args')
    = (args ++ map compact ds)%list.
Proof.
  intros Hne H. induction H as [|d r Hd Hr IH]; [congruence|]. intros args.
  destruct (compact_plain d Hd) as [Hplain Hnonempty].
  destruct r as [|d' r'].
  - cbn [map Py.join].
    pose proof (compact_scans d Hd "" args "" 0%Z) as E.
    rewrite str_app_nil_r in E. rewrite E by lia. cbn [split_loop].
    change ("" ++ compact d) with (compact d).
    rewrite strip_plain by assumption.
    destruct (compact d); [congruence|reflexivity].
  - cbn [map]. rewrite join_cons2.
    rewrite (compact_scans d Hd) by lia.
    rewrite split_loop_comma_top.
    change ("" ++ compact d) with (compact d).
    rewrite strip_plain by assumption.
    specialize (IH ltac:(congruence) (args ++ [compact d])%list).
    cbn [map] in IH. rewrite IH. rewrite <- app_assoc. reflexivity.
Qed.

Lemma split_args_compact (ds : list TypeDescriptor) :
  ds <> [] -> Forall (fun d => wf_descriptor d = true) ds ->
  split_args (Py.join "," (map compact ds)) = map compact ds.
Proof.
  intros Hne H. unfold split_args.
  exact (split_loop_top ds Hne H []).
Qed.

(** *** Parsing the text of a well-formed descriptor *)

Lemma find_name_none (b : string) :
  all_chars name_char b = true -> Py.find "<" b = None.
Proof.
  induction b as [|c r IH]; simpl; auto. intros H.
  apply andb_prop in H as [Hc Hr]. unfold name_char in Hc.
  apply andb_prop in Hc as [Hc _]. apply andb_prop in Hc as [Hc _].
  apply andb_prop in Hc as [_ H1]. apply negb_true_iff in H1.
  rewrite H1, IH by assumption. reflexivity.
Qed.

Lemma find_name_open (b rest : string) :
  all_chars name_char b = true ->
  Py.find "<" (b ++ "<" ++ rest) = Some (String.length b).
Proof.
  induction b as [|c r IH]; simpl; auto. intros H.
  apply andb_prop in H as [Hc Hr]. unfold name_char in Hc.
  apply andb_prop in Hc as [Hc _]. apply andb_prop in Hc as [Hc _].
  apply andb_prop in Hc as [_ H1]. apply negb_true_iff in H1.
  rewrite H1. simpl in IH. rewrite IH by assumption. reflexivity.
Qed.

Lemma slice_base (b rest : string) :
  Py.slice 0 (String.length b) (b ++ rest) = b.
Proof. unfold Py.slice. rewrite Nat.sub_0_r. apply substring_prefix_app. Qed.

Lemma slice_args_str (b mid : string) :
  Py.slice_to_end_minus (String.length b + 1) 1 (b ++ "<" ++ mid ++ ">") = mid.
Proof.
  unfold Py.slice_to_end_minus, Py.slice.
  rewrite substring_skip_app. rewrite !str_length_app.
  cbn [String.length append substring].
  match goal with
  | |- substring 0 ?m _ = _ =>
      replace m with (String.length mid) by (cbn [String.length]; lia)
  end.
  apply substring_prefix_app.
Qed.

Lemma parse_compact (d : TypeDescriptor) :
  wf_descriptor d = true ->
  forall s, Py.remove_spaces s = compact d -> parse_generic_type s = Some d.
Proof.
  induction d as [base args IH] using TypeDescriptor_nested_ind.
  intros Hwf s Hs.
  pose proof Hwf as Hwf'.
  apply wf_descriptor_inv in Hwf' as (Hne & Hb & Hargs).
  rewrite parse_generic_type_unfold. unfold parse_body. rewrite Hs.
  rewrite compact_TD by assumption.
  destruct args as [|a r].
  - now rewrite find_name_none.
  - rewrite find_name_open by assumption.
    rewrite slice_base, slice_args_str.
    rewrite split_args_compact by (auto; congruence).
    assert (E : mapM parse_generic_type (map compact (a :: r)) = Some (a :: r)).
    { apply mapM_Forall2.
      clear - IH Hargs. induction (a :: r) as [|x l IHl]; cbn [map]; constructor.
      - inversion IH; subst. inversion Hargs; subst.
        apply H1; auto. unfold compact. apply remove_spaces_idem.
      - apply IHl; [now inversion IH|now inversion Hargs]. }
    rewrite E. reflexivity.
Qed.

(** *** The dummy value of reconstructed text *)

Lemma only_spaces_lstrip (s : string) :
  only_spaces s = true ->
  only_spaces (Py.lstrip s) = true
  /\ Py.remove_spaces (Py.lstrip s) = Py.remove_spaces s.
Proof.
  unfold only_spaces. induction s as [|c r IH]; simpl; auto. intros H.
  apply andb_prop in H as [Hc Hr]. unfold not_space in Hc.
  destruct (Py.isspace c) eqn:Es; simpl in *.
  - rewrite Hc. now apply IH.
  - rewrite Hr. unfold not_space. rewrite Es. auto.
Qed.

Lemma only_spaces_rstrip (s : string) :
  only_spaces s = true ->
  Py.remove_spaces (Py.rstrip s) = Py.remove_spaces s.
Proof.
  unfold only_spaces. induction s as [|c r IH]; simpl; auto. intros H.
  apply andb_prop in H as [Hc Hr]. specialize (IH Hr).
  unfold not_space in Hc.
  destruct (Py.rstrip r) as [|c' r'].
  - simpl in IH. destruct (Py.isspace c) eqn:Es; simpl in *.
    + now rewrite Hc.
    + now rewrite <- IH.
  - change (Py.remove_spaces (String c (String c' r')))
      with (if Ascii.eqb c " " then Py.remove_spaces (String c' r')
            else String c (Py.remove_spaces (String c' r'))).
    now rewrite IH.
Qed.

Lemma only_spaces_strip (s : string) :
  only_spaces s = true -> Py.remove_spaces (Py.strip s) = Py.remove_spaces s.
Proof.
  intros H. destruct (only_spaces_lstrip s H) as [H1 H2].
  unfold Py.strip. now rewrite only_spaces_rstrip.
Qed.

Lemma only_spaces_of_plain (s : string) :
  all_chars not_space (Py.remove_spaces s) = true -> only_spaces s = true.
Proof.
  unfold only_spaces. induction s as [|c r IH]; simpl; auto.
  destruct (Ascii.eqb c " ") eqn:E; simpl.
  - intros H. rewrite orb_true_r. auto.
  - intros H. apply andb_prop in H as [H1 H2]. rewrite H1. simpl. auto.
Qed.

(** Any spelling of a well-formed descriptor has the dummy value of its
    reconstruction. *)
Lemma infer_reconstructed (d : TypeDescriptor) (s : string) :
  wf_descriptor d = true -> Py.remove_spaces s = compact d ->
  infer_dummy_value (generic_to_string d) = infer_dummy_value s.
Proof.
  intros Hwf Hs. destruct (compact_plain d Hwf) as [Hp _].
  apply infer_dummy_value_normalised.
  rewrite !only_spaces_strip.
  - now rewrite Hs.
  - apply only_spaces_of_plain. now rewrite Hs.
  - apply only_spaces_of_plain. exact Hp.
Qed.

(** ** Constructor selection *)

Lemma max_loop_first_greatest {A} (key : A -> nat) (l : list A) :
  forall best, exists before chosen after,
    best :: l = (before ++ chosen :: after)%list
    /\ max_loop key best l = chosen
    /\ (forall x, In x before -> key x < key chosen)
    /\ (forall x, In x after -> key x <= key chosen).
Proof.
  induction l as [|x r IH]; intros best.
  - exists [], best, []. simpl. repeat split; intros ? [].
  - simpl. destruct (key best <? key x) eqn:E.
    + apply Nat.ltb_lt in E.
      destruct (IH x) as (before & chosen & after & Hl & Hm & Hb & Ha).
      exists (best :: before), chosen, after.
      split; [simpl; now rewrite Hl|]. split; [exact Hm|]. split; [|exact Ha].
      assert (Hx : key x <= key chosen).
      { destruct before as [|b bs]; simpl in Hl; injection Hl as Hh Ht.
        - rewrite Hh. lia.
        - rewrite Hh. apply Nat.lt_le_incl, Hb. now left. }
      intros y [Hy|Hy]; [rewrite <- Hy; lia|now apply Hb].
    + apply Nat.ltb_ge in E.
      destruct (IH best) as (before & chosen & after & Hl & Hm & Hb & Ha).
      destruct before as [|b bs]; simpl in Hl; injection Hl as Hh Ht.
      * exists [], chosen, (x :: r).
        split; [simpl; now rewrite Hh|]. split; [exact Hm|].
        split; [intros ? []|].
        intros y [Hy|Hy].
        -- rewrite <- Hy, <- Hh. exact E.
        -- apply Ha. rewrite Ht in Hy. exact Hy.
      * exists (b :: x :: bs), chosen, after.
        split; [simpl; now rewrite Hh, Ht|]. split; [exact Hm|].
        split; [|exact Ha].
        assert (Hbest : key best < key chosen).
        { rewrite Hh. apply Hb. now left. }
        intros y [Hy|[Hy|Hy]].
        -- rewrite <- Hy. apply Hb. now left.
        -- rewrite <- Hy. lia.
        -- apply Hb. now right.
Qed.

(** ** The arrange block, parameter by parameter *)

Lemma infer_all (ps : list string) :
  exists ds, Forall2 (fun p d => infer_dummy_value p = Some d) ps ds.
Proof.
  induction ps as [|p r [ds IH]]; [exists []; constructor|].
  destruct (infer_dummy_value_total p) as [d Ed].
  exists (d :: ds). now constructor.
Qed.

Lemma args_from_length (ps ds : list string) :
  List.length ps = List.length ds ->
  forall i, List.length (args_from i ps ds) = List.length ps.
Proof.
  revert ds; induction ps as [|p r IH]; intros [|d ds] H i; simpl in *;
    try discriminate; auto.
Qed.

Lemma decls_from_length (ps : list string) :
  forall i, List.length (decls_from i ps) = interface_count ps.
Proof.
  unfold interface_count. induction ps as [|p r IH]; intros i; simpl; auto.
  destruct (is_interface p); simpl; rewrite IH; reflexivity.
Qed.

Lemma setups_from_length (ps ds : list string) :
  List.length ps = List.length ds ->
  forall i, List.length (setups_from i ps ds) = interface_count ps.
Proof.
  unfold interface_count.
  revert ds; induction ps as [|p r IH]; intros [|d ds] H i; simpl in *;
    try discriminate; auto.
  destruct (is_interface p); simpl; rewrite IH; auto.
Qed.

(** The lines the code builds are the lines written out above. *)
Lemma mock_decl_text (i : nat) (p : string) :
  mock_decl i p = expected_mock_decl i p.
Proof.
  unfold mock_decl, expected_mock_decl, mock_var, indent.
  rewrite ?str_app_assoc. reflexivity.
Qed.

Lemma setup_line_text (i : nat) (p d : string) :
  setup_line i p d = expected_setup i p d.
Proof.
  unfold setup_line, expected_setup, mock_var, indent.
  rewrite ?str_app_assoc. reflexivity.
Qed.

Lemma mock_object_text (i : nat) :
  mock_var i ++ ".Object" = "mock" ++ Py.str_of_nat i ++ ".Object".
Proof. unfold mock_var. rewrite ?str_app_assoc. reflexivity. Qed.

Lemma arrange_loop_lists (ps ds : list string) :
  Forall2 (fun p d => infer_dummy_value p = Some d) ps ds ->
  forall i acc,
    arrange_loop i ps acc
    = Some {| args_list := (args_list acc ++ args_from i ps ds)%list;
              mock_decls := (mock_decls acc ++ decls_from i ps)%list;
              setup_lines := (setup_lines acc ++ setups_from i ps ds)%list |}.
Proof.
  induction 1 as [|p d ps ds Hd Hr IH]; intros i acc.
  - simpl. rewrite !app_nil_r. now destruct acc.
  - cbn [arrange_loop args_from decls_from setups_from]. unfold expected_arg.
    fold (is_interface p). rewrite Hd. cbn [bind].
    destruct (is_interface p); rewrite IH; cbn [args_list mock_decls setup_lines];
      rewrite ?mock_decl_text, ?setup_line_text, ?mock_object_text;
      rewrite <- ?app_assoc; reflexivity.
Qed.

Lemma setups_empty_iff_decls (ps ds : list string) :
  List.length ps = List.length ds ->
  forall i, nonempty (setups_from i ps ds) = nonempty (decls_from i ps).
Proof.
  revert ds; induction ps as [|p r IH]; intros [|d ds] Hl i; simpl in *;
    try discriminate; auto.
  destruct (is_interface p); auto.
Qed.

Lemma not_truthy (s : string) : Py.truthy s = false -> s = "".
Proof. destruct s; [reflexivity|discriminate]. Qed.

(** The text of the arrange block for a non-empty constructor list. *)
Lemma compute_arrange_text (class_name : string) (first : Constructor)
      (others : list Constructor) (ds : list string) :
  let ps := params (max_loop (fun c => List.length (params c)) first others) in
  Forall2 (fun p d => infer_dummy_value p = Some d) ps ds ->
  compute_arrange class_name (first :: others)
  = Some (arrange_header
          ++ mock_block (decls_from 0 ps) (setups_from 0 ps ds)
          ++ target_line class_name (Py.join ", " (args_from 0 ps ds))).
Proof.
  intros ps H. unfold compute_arrange. fold ps.
  rewrite (arrange_loop_lists ps ds H). cbn [bind args_list mock_decls setup_lines app].
  rewrite (setups_empty_iff_decls ps ds (Forall2_length H)).
  assert (E : (if nonempty (decls_from 0 ps)
               then if nonempty (decls_from 0 ps)
                    then (arrange_header ++ Py.join Py.newline (decls_from 0 ps)
                          ++ Py.newline)
                         ++ Py.join Py.newline (setups_from 0 ps ds) ++ Py.newline
                    else arrange_header ++ Py.join Py.newline (decls_from 0 ps)
                         ++ Py.newline
               else arrange_header)
              = arrange_header ++ mock_block (decls_from 0 ps) (setups_from 0 ps ds)).
  { unfold mock_block. destruct (decls_from 0 ps); cbn [nonempty].
    - now rewrite str_app_nil_r.
    - now rewrite !str_app_assoc. }
  rewrite E. rewrite str_app_assoc.
  destruct (Py.truthy (Py.join ", " (args_from 0 ps ds))) eqn:T; auto.
  apply not_truthy in T. rewrite T. reflexivity.
Qed.

(** The text of the arrange block, written out. *)
Lemma compute_arrange_expected (class_name : string) (first : Constructor)
      (others : list Constructor) (ds : list string) :
  let ps := params (max_loop (fun c => List.length (params c)) first others) in
  Forall2 (fun p d => infer_dummy_value p = Some d) ps ds ->
  compute_arrange class_name (first :: others)
  = Some (expected_arrange class_name ps ds).
Proof.
  intros ps H. rewrite (compute_arrange_text class_name first others ds H).
  fold ps. unfold expected_arrange, arrange_header, target_line, indent.
  rewrite ?str_app_assoc. reflexivity.
Qed.

Lemma args_from_nth (ps ds : list string) :
  forall i k p d,
    nth_error ps k = Some p -> nth_error ds k = Some d ->
    nth_error (args_from i ps ds) k = Some (expected_arg (i + k) p d).
Proof.
  revert ds; induction ps as [|p0 r IH]; intros ds i k p d Hp Hd.
  - destruct k; discriminate.
  - destruct ds as [|d0 ds]; [destruct k; discriminate|].
    destruct k as [|k]; cbn [args_from nth_error] in *.
    + inversion Hp; inversion Hd; subst. now rewrite Nat.add_0_r.
    + rewrite (IH ds (S i) k p d Hp Hd).
      now replace (S i + k) with (i + S k) by lia.
Qed.

Lemma mocks_from_In (ps ds : list string) :
  forall i k p d,
    nth_error ps k = Some p -> nth_error ds k = Some d ->
    is_interface p = true ->
    In (expected_mock_decl (i + k) p) (decls_from i ps)
    /\ In (expected_setup (i + k) p d) (setups_from i ps ds).
Proof.
  revert ds; induction ps as [|p0 r IH]; intros ds i k p d Hp Hd Hi.
  - destruct k; discriminate.
  - destruct ds as [|d0 ds]; [destruct k; discriminate|].
    destruct k as [|k]; cbn [decls_from setups_from nth_error] in *.
    + inversion Hp; inversion Hd; subst. rewrite Hi, Nat.add_0_r.
      split; now left.
    + destruct (IH ds (S i) k p d Hp Hd Hi) as [H1 H2].
      replace (i + S k) with (S i + k) by lia.
      destruct (is_interface p0); split; simpl; auto.
Qed.

(** ** Types nested deeper than the bound on nested calls *)

Lemma nested_task_wf (n : nat) : wf_descriptor (nested_task n) = true.
Proof.
  induction n as [|n IH]; [reflexivity|].
  cbn [nested_task wf_descriptor forallb]. now rewrite IH.
Qed.

Lemma nested_task_compact (n : nat) :
  compact (nested_task (S n)) = "Task" ++ "<" ++ compact (nested_task n) ++ ">".
Proof. cbn [nested_task]. now rewrite compact_TD. Qed.

Lemma reconstructed_normalised (d : TypeDescriptor) :
  wf_descriptor d = true ->
  Py.remove_spaces (Py.strip (generic_to_string d)) = compact d.
Proof.
  intros Hwf. destruct (compact_plain d Hwf) as [Hp _].
  rewrite only_spaces_strip; [reflexivity|]. now apply only_spaces_of_plain.
Qed.

(** With [n] nested calls allowed, the parser does not get through a type
    nested [n] deep. *)
Lemma parse_fuel_nested (n : nat) :
  forall s, Py.remove_spaces s = compact (nested_task n) -> parse_fuel n s = None.
Proof.
  induction n as [|n IH]; intros s Hs; [reflexivity|].
  cbn [parse_fuel]. unfold parse_body. rewrite Hs, nested_task_compact.
  rewrite find_name_open by reflexivity.
  rewrite slice_base, slice_args_str.
  pose proof (split_args_compact [nested_task n] ltac:(discriminate)
                ltac:(repeat constructor; apply nested_task_wf)) as E.
  cbn [map Py.join] in E. rewrite E. cbn [mapM].
  rewrite (IH (compact (nested_task n))) by apply remove_spaces_idem.
  reflexivity.
Qed.

(** The task branch of the body of [infer_dummy_value]. *)
Lemma infer_body_task (self : string -> option string) (type_name base : string)
      (inner : TypeDescriptor) :
  let type_str := Py.remove_spaces (Py.strip type_name) in
  Py.endswith type_str "[]" = false ->
  parse_generic_type type_str = Some (TD base [inner]) ->
  Py.lower base = "task" ->
  infer_body self type_name
  = (inner_dummy <- self (generic_to_string inner) ;;
     Some ("Task.FromResult(" ++ inner_dummy ++ ")")).
Proof.
  intros type_str He Hp Hb. unfold infer_body. fold type_str.
  rewrite He, Hp. cbn [bind td_base td_args]. rewrite Hb. reflexivity.
Qed.

(** Nor does [infer_dummy_value]. *)
Lemma infer_fuel_nested (n : nat) :
  forall s, Py.remove_spaces (Py.strip s) = compact (nested_task n) ->
            infer_fuel n s = None.
Proof.
  induction n as [|n IH]; intros s Hs; [reflexivity|].
  cbn [infer_fuel].
  rewrite (infer_body_task (infer_fuel n) s "Task" (nested_task n)).
  - rewrite IH; [reflexivity|]. apply reconstructed_normalised, nested_task_wf.
  - rewrite Hs, nested_task_compact, <- !str_app_assoc.
    apply endswith_marker_close.
  - rewrite Hs. apply (parse_compact (nested_task (S n))).
    + apply nested_task_wf.
    + apply remove_spaces_idem.
  - reflexivity.
Qed.

(** * The properties of the specification *)

(** ** Task-like types *)

(** A task-like type with exactly one generic argument yields
    [Task.FromResult] around the dummy value of that argument. *)
Lemma infer_task_one_argument (type_name base : string) (inner : TypeDescriptor) :
  let type_str := Py.remove_spaces (Py.strip type_name) in
  Py.endswith type_str "[]" = false ->
  parse_generic_type type_str = Some (TD base [inner]) ->
  Py.lower base = "task" ->
  exists inner_dummy,
    infer_dummy_value (generic_to_string inner) = Some inner_dummy
    /\ infer_dummy_value type_name = Some ("Task.FromResult(" ++ inner_dummy ++ ")").
Proof.
  intros type_str He Hp Hb.
  destruct (infer_dummy_value_total (generic_to_string inner)) as [v Ev].
  exists v. split; [exact Ev|].
  rewrite infer_dummy_value_unfold. unfold infer_body. fold type_str.
  rewrite He, Hp. cbn [bind td_base td_args]. rewrite Hb, Ev. reflexivity.
Qed.

(** [Task.CompletedTask] is what a task-like type with two or more generic
    arguments gets. *)
Lemma infer_task_many_arguments (type_name base : string)
      (generics : list TypeDescriptor) :
  let type_str := Py.remove_spaces (Py.strip type_name) in
  Py.endswith type_str "[]" = false ->
  parse_generic_type type_str = Some (TD base generics) ->
  Py.lower base = "task" ->
  2 <= List.length generics ->
  infer_dummy_value type_name = Some "Task.CompletedTask".
Proof.
  intros type_str He Hp Hb Hl.
  rewrite infer_dummy_value_unfold. unfold infer_body. fold type_str.
  rewrite He, Hp. cbn [bind td_base td_args]. rewrite Hb.
  destruct generics as [|a [|b r]]; simpl in Hl; try lia. reflexivity.
Qed.

(** C1. The bare type [Task] has no generic arguments, so the guard
    [if generics:] skips the task branch: the value is the null sentinel
    and not the pre-completed-task expression. *)
Theorem infer_bare_task :
  parse_generic_type "Task" = Some (TD "Task" [])
  /\ infer_dummy_value "Task" = Some "null"
  /\ infer_dummy_value "Task" <> Some "Task.CompletedTask".
Proof. repeat split; try reflexivity. vm_compute. discriminate. Qed.

(** ** Generic types with an unrecognised base *)

(** A generic type whose base is none of the known containers gets whatever
    the table of primitive patterns gives for its base. *)
Lemma infer_other_generic (type_name base : string)
      (generics : list TypeDescriptor) :
  let type_str := Py.remove_spaces (Py.strip type_name) in
  Py.endswith type_str "[]" = false ->
  parse_generic_type type_str = Some (TD base generics) ->
  existsb (String.eqb (Py.lower base)) known_list_bases = false ->
  Py.lower base <> "dictionary" -> Py.lower base <> "task" ->
  infer_dummy_value type_name = Some (first_match dummy_patterns (Py.lower base)).
Proof.
  intros type_str He Hp Hl Hd Ht.
  rewrite infer_dummy_value_unfold. unfold infer_body. fold type_str.
  rewrite He, Hp. cbn [bind td_base td_args]. rewrite Hl.
  apply String.eqb_neq in Hd, Ht. rewrite Hd, Ht.
  destruct generics; reflexivity.
Qed.

(** C2. The generic type [Int<Foo>] has one generic argument and a base
    that is no known container, yet its value is the integer literal and
    not the null sentinel. *)
Theorem infer_generic_with_primitive_base :
  parse_generic_type "Int<Foo>" = Some (TD "Int" [TD "Foo" []])
  /\ infer_dummy_value "Int<Foo>" = Some "0"
  /\ infer_dummy_value "Int<Foo>" <> Some "null".
Proof. repeat split; try reflexivity. vm_compute. discriminate. Qed.

(** ** Round trip *)

(** C3, as stated, fails: the reconstruction of [Dictionary<string,int>]
    has a space after the comma, the reconstruction of the balanced
    [List<>] loses its brackets, and a descriptor with an empty argument
    name is not parsed back. *)
Lemma roundtrip_balanced_counterexample :
  balanced "Dictionary<string,int>" = true
  /\ option_map generic_to_string (parse_generic_type "Dictionary<string,int>")
     = Some "Dictionary<string, int>"
  /\ Some "Dictionary<string, int>"
     <> Some (Py.remove_spaces "Dictionary<string,int>")
  /\ balanced "List<>" = true
  /\ option_map compact (parse_generic_type "List<>") = Some "List"
  /\ Some "List" <> Some (Py.remove_spaces "List<>")
  /\ parse_generic_type (generic_to_string (TD "List" [TD "" []]))
     <> Some (TD "List" [TD "" []]).
Proof.
  repeat split; try reflexivity; vm_compute; discriminate.
Qed.

(** C3, amended.  For a descriptor whose base names are non-empty and hold
    no whitespace, bracket or comma, and for any text that spells it with
    spaces placed anywhere: parsing the text gives the descriptor,
    reconstruction gives its rendering with a comma and a space between
    arguments (equal to the text once spaces are removed from both), and
    parsing the rendering gives the descriptor back. *)
Theorem roundtrip_well_formed (d : TypeDescriptor) (s : string) :
  wf_descriptor d = true ->
  Py.remove_spaces s = Py.remove_spaces (generic_to_string d) ->
  parse_generic_type s = Some d
  /\ option_map generic_to_string (parse_generic_type s)
     = Some (generic_to_string d)
  /\ Py.remove_spaces (generic_to_string d) = Py.remove_spaces s
  /\ parse_generic_type (generic_to_string d) = Some d.
Proof.
  intros Hwf Hs.
  assert (E : parse_generic_type s = Some d) by (apply parse_compact; auto).
  repeat split; auto.
  - now rewrite E.
  - now apply parse_compact.
Qed.

Lemma roundtrip_well_formed_witness :
  let d := TD "Dictionary" [TD "string" []; TD "List" [TD "int[]" []]] in
  let s := " Dictionary <string,List< int[] > >" in
  parse_generic_type s = Some d
  /\ option_map generic_to_string (parse_generic_type s)
     = Some (generic_to_string d)
  /\ Py.remove_spaces (generic_to_string d) = Py.remove_spaces s
  /\ parse_generic_type (generic_to_string d) = Some d.
Proof.
  intros d s.
  apply (roundtrip_well_formed d s); vm_compute; reflexivity.
Defined.

(** ** Termination *)

(** C4, as stated, fails: a bound on nested calls, as the interpreter
    has, is reached by a well-formed type nested as deep as the bound.
    With 1000 nested calls allowed neither function returns on the task
    type nested 1000 deep. *)
Lemma deep_nesting_counterexample :
  wf_descriptor (nested_task 1000) = true
  /\ parse_fuel 1000 (generic_to_string (nested_task 1000)) = None
  /\ infer_fuel 1000 (generic_to_string (nested_task 1000)) = None.
Proof.
  split; [apply nested_task_wf|]. split.
  - apply parse_fuel_nested. reflexivity.
  - apply infer_fuel_nested, reconstructed_normalised, nested_task_wf.
Qed.

(** C4, amended.  On every string, balanced or not, the recursion of
    [parse_generic_type] and [infer_dummy_value] is well-founded: as soon
    as the number of nested calls allowed exceeds the length of the
    string both return a value, and the value is the same under any two
    such bounds. *)
Theorem recursion_well_founded (s : string) (limit limit' : nat) :
  String.length s < limit -> String.length s < limit' ->
  (exists d, parse_fuel limit s = Some d /\ parse_fuel limit' s = Some d)
  /\ (exists v, infer_fuel limit s = Some v /\ infer_fuel limit' s = Some v).
Proof.
  intros Hl Hl'. split.
  - pose proof (remove_spaces_length s).
    destruct (parse_fuel_total limit s ltac:(lia)) as [d E]. exists d.
    split; auto. rewrite <- E. apply parse_fuel_indep; lia.
  - pose proof (type_str_length_le s).
    destruct (infer_fuel_total limit s ltac:(lia)) as [v E]. exists v.
    split; auto. rewrite <- E. apply infer_fuel_indep; lia.
Qed.

Lemma recursion_well_founded_witness :
  (exists d, parse_fuel 11 "Task<A<B,C" = Some d
             /\ parse_fuel 1000 "Task<A<B,C" = Some d)
  /\ (exists v, infer_fuel 11 "Task<A<B,C" = Some v
                /\ infer_fuel 1000 "Task<A<B,C" = Some v).
Proof.
  apply (recursion_well_founded "Task<A<B,C" 11 1000); simpl; lia.
Defined.

(** Text with unbalanced brackets is split without an error. *)
Example unbalanced_text :
  parse_generic_type "A<B<C" = Some (TD "A" [TD "B" []])
  /\ parse_generic_type "A>,B<" = Some (TD "A>,B" [])
  /\ infer_dummy_value "Task<int" = Some "Task.FromResult(null)"
  /\ infer_dummy_value ">>[]<" = Some "null".
Proof. repeat split; vm_compute; reflexivity. Qed.

(** ** Arrays *)

(** The array branch of [infer_dummy_value]. *)
Lemma infer_array (type_name : string) :
  let type_str := Py.remove_spaces (Py.strip type_name) in
  let elem_str := Py.slice_to_end_minus 0 2 type_str in
  Py.endswith type_str "[]" = true ->
  exists elem_parsed elem_dummy,
    parse_generic_type elem_str = Some elem_parsed
    /\ infer_dummy_value (generic_to_string elem_parsed) = Some elem_dummy
    /\ infer_dummy_value type_name
       = Some (if String.eqb elem_dummy "null"
               then "new " ++ type_str ++ " { }"
               else "new " ++ type_str ++ " { " ++ elem_dummy ++ " }").
Proof.
  intros type_str elem_str He.
  destruct (parse_generic_type_total elem_str) as [ep Ep].
  destruct (infer_dummy_value_total (generic_to_string ep)) as [v Ev].
  exists ep, v. repeat split; auto.
  rewrite infer_dummy_value_unfold. unfold infer_body.
  fold type_str. rewrite He. fold elem_str. rewrite Ep. cbn [bind].
  rewrite Ev. cbn [bind]. destruct (String.eqb v "null"); reflexivity.
Qed.

(** When the element type is well formed, the value put in the array is
    the dummy value of the element type as it is written. *)
Lemma infer_array_well_formed (type_name : string) (d : TypeDescriptor) :
  let type_str := Py.remove_spaces (Py.strip type_name) in
  let elem_str := Py.slice_to_end_minus 0 2 type_str in
  Py.endswith type_str "[]" = true ->
  wf_descriptor d = true -> Py.remove_spaces elem_str = compact d ->
  exists elem_dummy,
    infer_dummy_value elem_str = Some elem_dummy
    /\ infer_dummy_value type_name
       = Some (if String.eqb elem_dummy "null"
               then "new " ++ type_str ++ " { }"
               else "new " ++ type_str ++ " { " ++ elem_dummy ++ " }").
Proof.
  intros type_str elem_str He Hwf Hs.
  destruct (infer_array type_name He) as (ep & v & Ep & Ev & Hr).
  fold type_str elem_str in Ep, Hr.
  rewrite (parse_compact d Hwf elem_str Hs) in Ep. injection Ep as <-.
  rewrite (infer_reconstructed d elem_str Hwf Hs) in Ev.
  exists v. split; assumption.
Qed.



(** ** Dictionaries *)

(** C7. A type that is not an array and whose base is [dictionary] in any
    letter case yields the empty construction of its full generic type when
    it has two or more generic arguments, and the null sentinel when it has
    exactly one. *)
Theorem dictionary_policy (type_name base : string)
        (generics : list TypeDescriptor) :
  let type_str := Py.remove_spaces (Py.strip type_name) in
  Py.endswith type_str "[]" = false ->
  parse_generic_type type_str = Some (TD base generics) ->
  Py.lower base = "dictionary" ->
  (2 <= List.length generics ->
   infer_dummy_value type_name
   = Some ("new " ++ generic_to_string (TD base generics) ++ "()"))
  /\ (List.length generics = 1 -> infer_dummy_value type_name = Some "null").
Proof.
  intros type_str He Hp Hb.
  rewrite infer_dummy_value_unfold. unfold infer_body. fold type_str.
  rewrite He, Hp. cbn [bind td_base td_args]. rewrite Hb.
  split; intros Hl.
  - destruct generics as [|a [|b r]]; simpl in Hl; try lia. reflexivity.
  - destruct generics as [|a [|b r]]; simpl in Hl; try lia. reflexivity.
Qed.

Lemma dictionary_policy_witness :
  infer_dummy_value "DICTIONARY<string,int>" = Some "new DICTIONARY<string, int>()"
  /\ infer_dummy_value "Dictionary<string>" = Some "null".
Proof.
  split.
  - apply (proj1 (dictionary_policy "DICTIONARY<string,int>" "DICTIONARY"
                    [TD "string" []; TD "int" []]
                    eq_refl eq_refl eq_refl)).
    simpl; lia.
  - apply (proj2 (dictionary_policy "Dictionary<string>" "Dictionary"
                    [TD "string" []] eq_refl eq_refl eq_refl)).
    reflexivity.
Defined.

(** ** The arrange block *)

(** C8. From a non-empty list of constructors the arrange block is built
    from the first one among those with the greatest number of parameters:
    every earlier constructor has strictly fewer parameters, no later one
    has more, and the block is the header, the mock lines and the target
    line that the parameters of this constructor call for. *)
Theorem arrange_selects_first_greatest (class_name : string)
        (constructors : list Constructor) :
  constructors <> [] ->
  exists before ctor after,
    constructors = (before ++ ctor :: after)%list
    /\ Forall (fun c => List.length (params c) < List.length (params ctor)) before
    /\ Forall (fun c => List.length (params c) <= List.length (params ctor)) after
    /\ forall ds,
         Forall2 (fun p d => infer_dummy_value p = Some d) (params ctor) ds ->
         compute_arrange class_name constructors
         = Some ("            // Arrange" ++ Py.newline
                 ++ mock_block (decls_from 0 (params ctor))
                               (setups_from 0 (params ctor) ds)
                 ++ "            var target = new " ++ class_name ++ "("
                 ++ Py.join ", " (args_from 0 (params ctor) ds) ++ ");"
                 ++ Py.newline).
Proof.
  intros Hne. destruct constructors as [|first others]; [congruence|].
  destruct (max_loop_first_greatest (fun c => List.length (params c)) others first)
    as (before & ctor & after & Hl & Hm & Hb & Ha).
  exists before, ctor, after. repeat split; auto.
  - now apply Forall_forall.
  - now apply Forall_forall.
  - intros ds Hds. rewrite <- Hm in *.
    exact (compute_arrange_expected class_name first others ds Hds).
Qed.

(** Of a constructor with one parameter and two with three, the first of
    the two is used. *)
Lemma arrange_selects_first_greatest_witness :
  compute_arrange "Service"
    [ {| params := ["int"] |};
      {| params := ["IRepository"; "int"; "bool"] |};
      {| params := ["long"; "long"; "long"] |} ]
  = Some ("            // Arrange" ++ Py.newline
          ++ "            var mock0 = new Mock<IRepository>();" ++ Py.newline
          ++ "            mock0.Setup(x => x.GetRepositoryDefault(It.IsAny<object>()))"
          ++ ".Returns(null);  // TODO: Customize setup for IRepository" ++ Py.newline
          ++ "            var target = new Service(mock0.Object, 0, false);"
          ++ Py.newline).
Proof.
  destruct (arrange_selects_first_greatest "Service"
              [ {| params := ["int"] |};
                {| params := ["IRepository"; "int"; "bool"] |};
                {| params := ["long"; "long"; "long"] |} ])
    as (before & ctor & after & Heq & Hb & Ha & Htext); [discriminate|].
  destruct before as [|b0 [|b1 [|b2 before]]]; cbn [app] in Heq;
    injection Heq as Heq; subst.
  - exfalso. inversion Ha as [|x l Hx Hl]. cbn in Hx. lia.
  - rewrite (Htext ["null"; "0"; "false"]).
    + vm_compute. reflexivity.
    + repeat constructor; vm_compute; reflexivity.
  - exfalso. inversion Hb as [|x l Hx Hl]. inversion Hl as [|y l' Hy Hl'].
    cbn in Hy. lia.
  - destruct before; discriminate.
Defined.

(** C9. With [ps] the parameters of the selected constructor and [ds]
    their inferred dummy values, the arrange block is the header line, the
    mock declarations followed by the setup lines of the parameters that
    start with a capital I, and the target line whose arguments follow the
    parameters in order: at position [k] the accessor [mock<k>.Object] of
    a mock that is declared and set up to return the dummy value of its
    type, for such a parameter, and the dummy value otherwise. *)
Theorem arrange_parameters (class_name : string) (first : Constructor)
        (others : list Constructor) (ds : list string) :
  let ps := params (max_loop (fun c => List.length (params c)) first others) in
  Forall2 (fun p d => infer_dummy_value p = Some d) ps ds ->
  compute_arrange class_name (first :: others)
  = Some ("            // Arrange" ++ Py.newline
          ++ mock_block (decls_from 0 ps) (setups_from 0 ps ds)
          ++ "            var target = new " ++ class_name ++ "("
          ++ Py.join ", " (args_from 0 ps ds) ++ ");" ++ Py.newline)
  /\ List.length (args_from 0 ps ds) = List.length ps
  /\ forall k,
       match nth_error ps k, nth_error ds k with
       | Some p, Some d =>
           if Py.startswith p "I" then
             nth_error (args_from 0 ps ds) k
             = Some ("mock" ++ Py.str_of_nat k ++ ".Object")
             /\ In ("            var mock" ++ Py.str_of_nat k
                    ++ " = new Mock<" ++ p ++ ">();")
                   (decls_from 0 ps)
             /\ In ("            mock" ++ Py.str_of_nat k ++ ".Setup(x => x.Get"
                    ++ Py.slice_from 1 p
                    ++ "Default(It.IsAny<object>())).Returns(" ++ d
                    ++ ");  // TODO: Customize setup for " ++ p)
                   (setups_from 0 ps ds)
           else nth_error (args_from 0 ps ds) k = Some d
       | _, _ => True
       end.
Proof.
  intros ps Hds.
  split; [exact (compute_arrange_expected class_name first others ds Hds)|].
  split; [apply args_from_length; exact (Forall2_length Hds)|].
  intros k.
  destruct (nth_error ps k) as [p|] eqn:Ep; [|exact I].
  destruct (nth_error ds k) as [d|] eqn:Ed; [|exact I].
  pose proof (args_from_nth ps ds 0 k p d Ep Ed) as Ha.
  unfold expected_arg in Ha. fold (is_interface p).
  destruct (is_interface p) eqn:Ei.
  - split; [exact Ha|]. exact (mocks_from_In ps ds 0 k p d Ep Ed Ei).
  - exact Ha.
Qed.

(** A parameter typed [IRepository] is mocked, one typed [Repository] is
    not. *)
Lemma arrange_parameters_witness :
  compute_arrange "Service" [ {| params := ["IRepository"; "Repository"] |} ]
  = Some ("            // Arrange" ++ Py.newline
          ++ "            var mock0 = new Mock<IRepository>();" ++ Py.newline
          ++ "            mock0.Setup(x => x.GetRepositoryDefault(It.IsAny<object>()))"
          ++ ".Returns(null);  // TODO: Customize setup for IRepository" ++ Py.newline
          ++ "            var target = new Service(mock0.Object, null);"
          ++ Py.newline).
Proof.
  refine (eq_trans
            (proj1 (arrange_parameters "Service"
                      {| params := ["IRepository"; "Repository"] |} []
                      ["null"; "null"] _)) _).
  - repeat constructor; vm_compute; reflexivity.
  - vm_compute. reflexivity.
Defined.

(** C10. With no constructor, or a selected constructor without
    parameters, the arrange block is the header and the parameterless
    construction of the class, and nothing else. *)
Theorem arrange_parameterless (class_name : string)
        (constructors : list Constructor) :
  constructors = []
  \/ (exists first others,
        constructors = first :: others
        /\ params (max_loop (fun c => List.length (params c)) first others) = []) ->
  compute_arrange class_name constructors
  = Some ("            // Arrange" ++ Py.newline
          ++ "            var target = new " ++ class_name ++ "();" ++ Py.newline).
Proof.
  intros [->|(first & others & -> & Hp)]; [reflexivity|].
  unfold compute_arrange. rewrite Hp. reflexivity.
Qed.

Lemma arrange_parameterless_witness :
  compute_arrange "Service" []
  = Some ("            // Arrange" ++ Py.newline
          ++ "            var target = new Service();" ++ Py.newline)
  /\ compute_arrange "Service" [ {| params := [] |}; {| params := [] |} ]
     = Some ("            // Arrange" ++ Py.newline
             ++ "            var target = new Service();" ++ Py.newline).
Proof.
  split.
  - apply (arrange_parameterless "Service" []). left. reflexivity.
  - apply (arrange_parameterless "Service" [ {| params := [] |}; {| params := [] |} ]).
    right. exists {| params := [] |}, [ {| params := [] |} ]. split; reflexivity.
Defined.

(** * Further properties of the code *)

(** ** More facts about the string primitives *)

Lemma slice_before_marker (x : string) :
  Py.slice_to_end_minus 0 2 (x ++ "[]") = x.
Proof.
  unfold Py.slice_to_end_minus, Py.slice. rewrite str_length_app. simpl String.length.
  replace (String.length x + 2 - 2 - 0) with (String.length x) by lia.
  apply substring_prefix_app.
Qed.

Lemma find_split (c : ascii) (s : string) (n : nat) :
  Py.find c s = Some n ->
  exists p q, s = p ++ String c q /\ Py.slice 0 n s = p /\ Py.find c p = None.
Proof.
  revert n; induction s as [|a r IH]; simpl; intros n H; [discriminate|].
  destruct (Ascii.eqb a c) eqn:E.
  - inversion H; subst. apply Ascii.eqb_eq in E. subst.
    exists "", r. auto.
  - destruct (Py.find c r) as [k|]; simpl in H; [|discriminate].
    inversion H; subst. destruct (IH k eq_refl) as (p & q & Hs & Hp & Hn).
    exists (String a p), q. unfold Py.slice in *. simpl.
    rewrite Nat.sub_0_r in Hp. rewrite Hp, E, Hn, <- Hs. auto.
Qed.

Lemma remove_spaces_same_length (s : string) :
  String.length (Py.remove_spaces s) = String.length s -> Py.remove_spaces s = s.
Proof.
  induction s as [|c r IH]; simpl; auto.
  pose proof (remove_spaces_length r) as Hle.
  destruct (Ascii.eqb c " "); simpl; intros H; [lia|].
  rewrite IH; auto.
Qed.

(** A piece of space-free text is space-free. *)
Lemma remove_spaces_prefix (p q : string) :
  Py.remove_spaces (p ++ q) = p ++ q -> Py.remove_spaces p = p.
Proof.
  intros H. apply remove_spaces_same_length.
  apply (f_equal String.length) in H.
  rewrite remove_spaces_app, !str_length_app in H.
  pose proof (remove_spaces_length p). pose proof (remove_spaces_length q). lia.
Qed.

Lemma str_last_cases (s : string) :
  s = "" \/ exists p c, s = p ++ String c "".
Proof.
  induction s as [|a r [->|(p & c & ->)]]; auto; right.
  - exists "", a. reflexivity.
  - exists (String a p), c. reflexivity.
Qed.

Lemma rstrip_last (s p : string) (c : ascii) :
  Py.rstrip s = p ++ String c "" -> Py.isspace c = false.
Proof.
  revert p; induction s as [|a r IH]; simpl; intros p H.
  - destruct p; discriminate.
  - destruct (Py.rstrip r) as [|b r'] eqn:Er.
    + destruct (Py.isspace a) eqn:Ea; [destruct p; discriminate|].
      destruct p as [|x p]; simpl in H; inversion H; subst; auto.
      destruct p; discriminate.
    + destruct p as [|x p]; simpl in H; inversion H; subst.
      eapply IH. eauto.
Qed.

Lemma remove_spaces_last (p : string) (c : ascii) :
  Py.isspace c = false ->
  Py.remove_spaces (p ++ String c "") = Py.remove_spaces p ++ String c "".
Proof.
  intros H. rewrite remove_spaces_app. simpl.
  destruct (Ascii.eqb c " ") eqn:E; auto.
  apply space_isspace in E. congruence.
Qed.

Lemma lower_app (a b : string) : Py.lower (a ++ b) = Py.lower a ++ Py.lower b.
Proof. induction a; simpl; congruence. Qed.

Lemma lower_char_newline (c : ascii) :
  Py.lower_char c = ascii_of_nat 10 -> Py.isspace c = true.
Proof.
  destruct c as [[] [] [] [] [] [] [] []]; vm_compute; intros H;
    try reflexivity; discriminate.
Qed.

(** The normalised type string, lower-cased, never ends in a newline. *)
Lemma type_lower_no_newline (type_name lit : string) :
  Py.lower (Py.remove_spaces (Py.strip type_name)) <> lit ++ Py.newline.
Proof.
  intros H. unfold Py.strip in H.
  destruct (str_last_cases (Py.rstrip (Py.lstrip type_name))) as [E|(p & c & E)].
  - rewrite E in H. simpl in H. destruct lit; discriminate.
  - pose proof (rstrip_last _ _ _ E) as Hc.
    rewrite E, remove_spaces_last, lower_app in H by assumption.
    simpl in H. apply str_app_inj_tail in H as [_ H].
    apply lower_char_newline in H. congruence.
Qed.

(** ** The primitive table *)

Lemma first_match_hit (patterns : list (string * string)) (t : string) :
  first_match patterns t <> "null" ->
  exists lit, In lit (map fst patterns) /\ Py.re_search_anchored lit t = true.
Proof.
  induction patterns as [|[lit value] rest IH]; simpl; intros H; [congruence|].
  destruct (Py.re_search_anchored lit t) eqn:E.
  - exists lit. auto.
  - destruct (IH H) as (l & Hl & Hm). exists l. auto.
Qed.

Lemma first_match_nonempty (patterns : list (string * string)) (t : string) :
  Forall (fun p => snd p <> "") patterns -> first_match patterns t <> "".
Proof.
  induction 1 as [|[lit value] rest Hv Hr IH]; simpl; [discriminate|].
  destruct (Py.re_search_anchored lit t); auto.
Qed.

Lemma dummy_patterns_nonempty (t : string) : first_match dummy_patterns t <> "".
Proof.
  apply first_match_nonempty. unfold dummy_patterns.
  repeat constructor; simpl; discriminate.
Qed.

Lemma primitive_names_hit (t : string) :
  In t primitive_names -> first_match dummy_patterns t <> "null".
Proof.
  unfold primitive_names, dummy_patterns. simpl.
  intros H. repeat (destruct H as [<-|H]; [vm_compute; discriminate|]).
  destruct H.
Qed.

(** The branch of [infer_dummy_value] for a type without brackets. *)
Lemma infer_non_generic (type_name : string) :
  let type_str := Py.remove_spaces (Py.strip type_name) in
  Py.endswith type_str "[]" = false ->
  Py.find "<" type_str = None ->
  infer_dummy_value type_name
  = Some (first_match dummy_patterns (Py.lower type_str)).
Proof.
  intros type_str He Hf.
  rewrite infer_dummy_value_unfold. unfold infer_body. fold type_str.
  assert (Hi : Py.remove_spaces type_str = type_str) by apply remove_spaces_idem.
  rewrite He, parse_generic_type_unfold. unfold parse_body.
  rewrite Hi, Hf. reflexivity.
Qed.

Lemma parse_well_formed_text (base : string) (args : list TypeDescriptor)
      (type_str : string) :
  wf_descriptor (TD base args) = true ->
  Py.remove_spaces type_str = compact (TD base args) ->
  parse_generic_type type_str = Some (TD base args).
Proof. intros Hwf Hs. now apply parse_compact. Qed.

Lemma compact_idem (d : TypeDescriptor) : Py.remove_spaces (compact d) = compact d.
Proof. unfold compact. apply remove_spaces_idem. Qed.

(** ** Properties of the parser and the reconstructor *)

(** X1. The parser sees its input only through the text without spaces:
    two strings that differ in spaces alone have the same parse. *)
Theorem parse_ignores_spaces (s s' : string) :
  Py.remove_spaces s = Py.remove_spaces s' ->
  parse_generic_type s = parse_generic_type s'.
Proof.
  intros H. rewrite (parse_generic_type_unfold s), (parse_generic_type_unfold s').
  unfold parse_body. rewrite H. reflexivity.
Qed.

Lemma parse_ignores_spaces_witness :
  parse_generic_type " Dictionary < string , int >"
  = parse_generic_type "Dictionary<string,int>".
Proof.
  apply (parse_ignores_spaces " Dictionary < string , int >" "Dictionary<string,int>").
  vm_compute. reflexivity.
Defined.

(** X2. The base name of a parse is the text that precedes the first
    opening bracket of the input without its spaces: it holds no opening
    bracket and no space, and what follows it is either nothing or starts
    with that bracket.  Generic arguments are only ever returned in the
    second case. *)
Theorem parse_base_is_prefix (s base : string) (args : list TypeDescriptor) :
  parse_generic_type s = Some (TD base args) ->
  Py.find "<" base = None
  /\ Py.remove_spaces base = base
  /\ ((Py.remove_spaces s = base /\ args = [])
      \/ exists rest, Py.remove_spaces s = base ++ "<" ++ rest).
Proof.
  intros H. rewrite parse_generic_type_unfold in H. unfold parse_body in H.
  destruct (Py.find "<" (Py.remove_spaces s)) as [lt_pos|] eqn:Hf.
  - apply bind_Some in H as (ps & _ & H). inversion H; subst; clear H.
    destruct (find_split _ _ _ Hf) as (p & q & Hs & Hp & Hn).
    rewrite Hp. repeat split; auto.
    + apply (remove_spaces_prefix p (String "<" q)).
      rewrite <- Hs. apply remove_spaces_idem.
    + right. exists q. exact Hs.
  - inversion H; subst. repeat split; auto. apply remove_spaces_idem.
Qed.

Lemma parse_base_is_prefix_witness :
  Py.find "<" "Task" = None
  /\ Py.remove_spaces "Task" = "Task"
  /\ ((Py.remove_spaces "Task < List<int> >" = "Task" /\ [TD "List" [TD "int" []]] = [])
      \/ exists rest, Py.remove_spaces "Task < List<int> >" = "Task" ++ "<" ++ rest).
Proof.
  apply (parse_base_is_prefix "Task < List<int> >" "Task" [TD "List" [TD "int" []]]).
  vm_compute. reflexivity.
Defined.

(** X3. Reconstructing the parse of any string, balanced or not, never
    gives more characters than the string had, spaces not counted. *)
Theorem reconstruction_not_longer (s : string) (d : TypeDescriptor) :
  parse_generic_type s = Some d ->
  String.length (Py.remove_spaces (generic_to_string d))
  <= String.length (Py.remove_spaces s).
Proof. apply parse_reconstruct_le. Qed.

Lemma reconstruction_not_longer_witness :
  String.length (Py.remove_spaces (generic_to_string (TD "A" [TD "B" []])))
  <= String.length (Py.remove_spaces "A< B ,>").
Proof.
  apply (reconstruction_not_longer "A< B ,>" (TD "A" [TD "B" []])).
  vm_compute. reflexivity.
Defined.

(** X4. Two well-formed descriptors whose reconstructions agree up to
    spaces are the same descriptor. *)
Theorem generic_to_string_injective (d1 d2 : TypeDescriptor) :
  wf_descriptor d1 = true -> wf_descriptor d2 = true ->
  Py.remove_spaces (generic_to_string d1) = Py.remove_spaces (generic_to_string d2) ->
  d1 = d2.
Proof.
  intros H1 H2 E.
  pose proof (parse_compact d1 H1 (generic_to_string d1) eq_refl) as P1.
  pose proof (parse_compact d2 H2 (generic_to_string d1) E) as P2.
  congruence.
Qed.

Lemma generic_to_string_injective_witness :
  TD "Map" [TD "K" []; TD "List" [TD "V" []]]
  = TD "Map" [TD "K" []; TD "List" [TD "V" []]].
Proof.
  apply (generic_to_string_injective
           (TD "Map" [TD "K" []; TD "List" [TD "V" []]])
           (TD "Map" [TD "K" []; TD "List" [TD "V" []]]));
    vm_compute; reflexivity.
Defined.

(** ** Properties of the dummy values *)

(** X5. A dummy value is never the empty text, so no argument position of
    a generated call is left blank. *)
Theorem infer_never_empty (type_name v : string) :
  infer_dummy_value type_name = Some v -> v <> "".
Proof.
  rewrite infer_dummy_value_unfold. unfold infer_body.
  set (type_str := Py.remove_spaces (Py.strip type_name)).
  destruct (Py.endswith type_str "[]").
  - intros H. apply bind_Some in H as (ep & _ & H).
    apply bind_Some in H as (ed & _ & H).
    destruct (String.eqb ed "null"); inversion H; discriminate.
  - intros H. apply bind_Some in H as ([base generics] & _ & H).
    cbn [td_base td_args] in H.
    pose proof (dummy_patterns_nonempty (Py.lower base)) as Hp.
    destruct generics as [|inner rest]; [inversion H; congruence|].
    destruct (existsb (String.eqb (Py.lower base)) known_list_bases);
      [inversion H; discriminate|].
    destruct (String.eqb (Py.lower base) "dictionary").
    { destruct (2 <=? List.length (inner :: rest)); inversion H; discriminate. }
    destruct (String.eqb (Py.lower base) "task"); [|inversion H; congruence].
    destruct (List.length (inner :: rest) =? 1); [|inversion H; discriminate].
    apply bind_Some in H as (v' & _ & H). inversion H; discriminate.
Qed.

Lemma infer_never_empty_witness : Py.dquote ++ Py.dquote <> "".
Proof.
  apply (infer_never_empty " String " (Py.dquote ++ Py.dquote)).
  vm_compute. reflexivity.
Defined.

(** X6. A type that is not an array, has at least one generic argument
    and whose base is [list], [ilist], [icollection] or [ienumerable] in
    any letter case yields the empty construction of its reconstructed
    full type, whatever the number of arguments. *)
Theorem list_like_policy (type_name base : string)
        (generics : list TypeDescriptor) :
  let type_str := Py.remove_spaces (Py.strip type_name) in
  Py.endswith type_str "[]" = false ->
  parse_generic_type type_str = Some (TD base generics) ->
  generics <> [] ->
  In (Py.lower base) known_list_bases ->
  infer_dummy_value type_name
  = Some ("new " ++ generic_to_string (TD base generics) ++ "()").
Proof.
  intros type_str He Hp Hg Hb.
  rewrite infer_dummy_value_unfold. unfold infer_body. fold type_str.
  rewrite He, Hp. cbn [bind td_base td_args].
  destruct generics as [|a r]; [congruence|].
  assert (E : existsb (String.eqb (Py.lower base)) known_list_bases = true).
  { apply existsb_exists. exists (Py.lower base). split; auto.
    apply String.eqb_refl. }
  rewrite E. reflexivity.
Qed.

Lemma list_like_policy_witness :
  infer_dummy_value " IEnumerable< Task<int>,string >"
  = Some ("new " ++ generic_to_string
                      (TD "IEnumerable" [TD "Task" [TD "int" []]; TD "string" []])
          ++ "()").
Proof.
  apply (list_like_policy " IEnumerable< Task<int>,string >" "IEnumerable"
           [TD "Task" [TD "int" []]; TD "string" []]).
  - vm_compute. reflexivity.
  - vm_compute. reflexivity.
  - discriminate.
  - vm_compute. tauto.
Defined.

(** X7. The dummy value depends on its argument only through the
    normalised type string: whitespace around the type and spaces inside
    it make no difference. *)
Theorem infer_ignores_whitespace (s s' : string) :
  Py.remove_spaces (Py.strip s) = Py.remove_spaces (Py.strip s') ->
  infer_dummy_value s = infer_dummy_value s'.
Proof. apply infer_dummy_value_normalised. Qed.

Lemma infer_ignores_whitespace_witness :
  infer_dummy_value "  Task < List<int> > [ ]  "
  = infer_dummy_value "Task<List<int>>[]".
Proof.
  apply (infer_ignores_whitespace "  Task < List<int> > [ ]  " "Task<List<int>>[]").
  vm_compute. reflexivity.
Defined.

(** X8. A type that is not an array and has no opening bracket gets a
    value other than the null sentinel exactly when its normalised text,
    lower-cased, is one of the fifteen names of the table: the match is
    on the whole name, in any letter case, never on a part of it. *)
Theorem primitive_match_is_exact (type_name : string) :
  let type_str := Py.remove_spaces (Py.strip type_name) in
  Py.endswith type_str "[]" = false ->
  Py.find "<" type_str = None ->
  exists v,
    infer_dummy_value type_name = Some v
    /\ (v <> "null" <-> In (Py.lower type_str) primitive_names).
Proof.
  intros type_str He Hf.
  exists (first_match dummy_patterns (Py.lower type_str)).
  split; [now apply infer_non_generic|]. split.
  - intros H. apply first_match_hit in H as (lit & Hl & Hm).
    unfold Py.re_search_anchored in Hm. apply orb_prop in Hm as [Hm|Hm];
      apply String.eqb_eq in Hm.
    + rewrite Hm. exact Hl.
    + exfalso. exact (type_lower_no_newline type_name lit Hm).
  - apply primitive_names_hit.
Qed.

Lemma primitive_match_is_exact_witness :
  exists v,
    infer_dummy_value " DateTime " = Some v
    /\ (v <> "null"
        <-> In (Py.lower (Py.remove_spaces (Py.strip " DateTime "))) primitive_names).
Proof.
  apply (primitive_match_is_exact " DateTime "); vm_compute; reflexivity.
Defined.

(** X9. A task of a well-formed type, however it is spaced: the value is
    [Task.FromResult] around the dummy value of the argument type as it
    would be inferred on its own. *)
Theorem task_of_well_formed (s base : string) (d : TypeDescriptor) :
  wf_base base = true -> Py.lower base = "task" ->
  wf_descriptor d = true ->
  Py.remove_spaces (Py.strip s) = base ++ "<" ++ compact d ++ ">" ->
  exists v,
    infer_dummy_value (compact d) = Some v
    /\ infer_dummy_value s = Some ("Task.FromResult(" ++ v ++ ")").
Proof.
  intros Hb Hl Hd Hs.
  assert (Hwf : wf_descriptor (TD base [d]) = true).
  { simpl. now rewrite Hb, Hd. }
  assert (Hbase : all_chars name_char base = true).
  { unfold wf_base in Hb. now apply andb_prop in Hb as [_ Hb]. }
  assert (Hc : compact (TD base [d]) = base ++ "<" ++ compact d ++ ">").
  { now rewrite compact_TD. }
  assert (Hp : parse_generic_type (Py.remove_spaces (Py.strip s)) = Some (TD base [d])).
  { apply parse_compact; auto. rewrite remove_spaces_idem. congruence. }
  assert (He : Py.endswith (Py.remove_spaces (Py.strip s)) "[]" = false).
  { rewrite Hs. rewrite <- !str_app_assoc. apply endswith_marker_close. }
  destruct (infer_task_one_argument s base d He Hp Hl) as (v & Ev & Hv).
  exists v. split; auto.
  rewrite <- Ev. symmetry. apply infer_reconstructed; auto. apply compact_idem.
Qed.

Lemma task_of_well_formed_witness :
  exists v,
    infer_dummy_value (compact (TD "List" [TD "int" []])) = Some v
    /\ infer_dummy_value " TASK< List <int> >" = Some ("Task.FromResult(" ++ v ++ ")").
Proof.
  apply (task_of_well_formed " TASK< List <int> >" "TASK" (TD "List" [TD "int" []]));
    vm_compute; reflexivity.
Defined.

(** X10. An array of a well-formed element type, however it is spaced:
    the literal is empty when the element type on its own has the null
    sentinel as dummy value, and holds that dummy value otherwise. *)
Theorem array_of_well_formed (s : string) (d : TypeDescriptor) :
  wf_descriptor d = true ->
  Py.remove_spaces (Py.strip s) = compact d ++ "[]" ->
  exists v,
    infer_dummy_value (compact d) = Some v
    /\ infer_dummy_value s
       = Some (if String.eqb v "null"
               then "new " ++ compact d ++ "[]" ++ " { }"
               else "new " ++ compact d ++ "[]" ++ " { " ++ v ++ " }").
Proof.
  intros Hd Hs.
  destruct (infer_array_well_formed s d) as (v & Ev & Hv); auto.
  - rewrite Hs. apply endswith_app.
  - rewrite Hs, slice_before_marker. apply compact_idem.
  - rewrite Hs, slice_before_marker in Ev. rewrite Hs in Hv.
    exists v. split; auto. rewrite Hv.
    destruct (String.eqb v "null"); now rewrite !str_app_assoc.
Qed.

Lemma array_of_well_formed_witness :
  let d := TD "Dictionary" [TD "string" []; TD "int" []] in
  exists v,
    infer_dummy_value (compact d) = Some v
    /\ infer_dummy_value "Dictionary<string, int> []"
       = Some (if String.eqb v "null"
               then "new " ++ compact d ++ "[]" ++ " { }"
               else "new " ++ compact d ++ "[]" ++ " { " ++ v ++ " }").
Proof.
  intros d.
  apply (array_of_well_formed "Dictionary<string, int> []" d); vm_compute; reflexivity.
Defined.

(** ** Properties of the arrange block *)

(** X11. When the parameter loop of [compute_arrange] finishes, it has
    added, to the lists it started from, one constructor argument per
    parameter and one mock declaration and one setup line per parameter
    that starts with a capital I. *)
Theorem arrange_loop_counts (i : nat) (ps : list string)
        (acc acc' : ArrangeLists) :
  arrange_loop i ps acc = Some acc' ->
  List.length (args_list acc') = List.length (args_list acc) + List.length ps
  /\ List.length (mock_decls acc')
     = List.length (mock_decls acc) + interface_count ps
  /\ List.length (setup_lines acc')
     = List.length (setup_lines acc) + interface_count ps.
Proof.
  intros H. destruct (infer_all ps) as [ds Hds].
  pose proof (Forall2_length Hds) as Hl.
  rewrite (arrange_loop_lists ps ds Hds) in H. injection H as <-.
  cbn [args_list mock_decls setup_lines].
  rewrite !length_app, args_from_length, decls_from_length, setups_from_length;
    auto.
Qed.

Lemma arrange_loop_counts_witness :
  let acc := {| args_list := []; mock_decls := []; setup_lines := [] |} in
  let acc' :=
    {| args_list := ["0"; "mock1.Object"];
       mock_decls := [mock_decl 1 "IClock"];
       setup_lines := [setup_line 1 "IClock" "null"] |} in
  List.length (args_list acc') = List.length (args_list acc) + 2
  /\ List.length (mock_decls acc')
     = List.length (mock_decls acc) + interface_count ["int"; "IClock"]
  /\ List.length (setup_lines acc')
     = List.length (setup_lines acc) + interface_count ["int"; "IClock"].
Proof.
  intros acc acc'.
  apply (arrange_loop_counts 0 ["int"; "IClock"] acc acc').
  vm_compute. reflexivity.
Defined.

(** ** Properties of the test class *)

Lemma has_return_value_plain (return_type : string) :
  Py.find "<" (Py.remove_spaces return_type) = None ->
  has_return_value return_type
  = Some (negb (String.eqb return_type "void")
          && negb (String.eqb (Py.lower (Py.remove_spaces return_type)) "task")).
Proof.
  intros Hf. unfold has_return_value.
  rewrite parse_generic_type_unfold. unfold parse_body. rewrite Hf.
  cbn [bind td_base td_args List.length Nat.eqb]. now rewrite andb_true_r.
Qed.

Lemma has_return_value_generic (return_type : string) (d : TypeDescriptor) :
  wf_descriptor d = true -> td_args d <> [] ->
  Py.remove_spaces return_type = compact d ->
  has_return_value return_type = Some true.
Proof.
  intros Hwf Ha Hs. unfold has_return_value.
  rewrite (parse_compact d Hwf return_type Hs). cbn [bind].
  destruct d as [base args]. cbn [td_base td_args] in *.
  destruct args as [|a r]; [congruence|].
  assert (Hv : String.eqb return_type "void" = false).
  { destruct (String.eqb return_type "void") eqn:E; auto.
    apply String.eqb_eq in E. subst return_type.
    apply wf_descriptor_inv in Hwf as (_ & Hb & _).
    rewrite compact_TD in Hs by assumption.
    apply (f_equal (Py.find "<")) in Hs.
    rewrite find_name_open in Hs by assumption. discriminate. }
  rewrite Hv. simpl. now rewrite andb_false_r.
Qed.

Lemma mapM_nil_inv {A B} (f : A -> option B) (ys : list B) :
  mapM f [] = Some ys -> ys = [].
Proof. simpl. intros H. now inversion H. Qed.

(** The text of a test method, given the dummy values of its parameters
    and whether its result is kept. *)
Lemma test_method_expected (arrange_str : string) (method : Method.t)
      (ds : list string) (captured : bool) :
  mapM infer_dummy_value (Method.params method) = Some ds ->
  has_return_value (Method.return_type method) = Some captured ->
  test_method arrange_str method
  = Some (expected_test_method arrange_str method ds captured).
Proof.
  intros Hds Hc. unfold test_method, expected_test_method.
  rewrite Hds, Hc. cbn [bind]. f_equal.
  destruct (Method.params method) as [|p ps] eqn:Ep.
  - apply mapM_nil_inv in Hds. subst ds. cbn [nonempty Py.join].
    destruct (Method.is_async method), captured;
      rewrite ?str_app_assoc; reflexivity.
  - cbn [nonempty].
    destruct (Method.is_async method), captured;
      rewrite ?str_app_assoc; reflexivity.
Qed.

(** X14. The text of the test method of a method whose parameters have
    dummy values [ds].  When its return type has no opening bracket, the
    call is a bare statement followed by the side-effect placeholder if
    the type is exactly [void] or reads [task] once its spaces are removed
    and its letters lower-cased, and otherwise its result is kept in
    [actual] and asserted non-null.  When its return type is a well-formed
    generic type, [Task<T>] included, however it is spaced, the result is
    always kept and asserted.  An async method is declared [async Task]
    and its call awaited. *)
Theorem test_method_text (arrange_str : string) (method : Method.t)
        (ds : list string) :
  mapM infer_dummy_value (Method.params method) = Some ds ->
  let return_type := Method.return_type method in
  (Py.find "<" (Py.remove_spaces return_type) = None ->
   test_method arrange_str method
   = Some (expected_test_method arrange_str method ds
             (negb (String.eqb return_type "void")
              && negb (String.eqb (Py.lower (Py.remove_spaces return_type))
                                  "task"))))
  /\ (forall d, wf_descriptor d = true -> td_args d <> [] ->
                Py.remove_spaces return_type = compact d ->
                test_method arrange_str method
                = Some (expected_test_method arrange_str method ds true)).
Proof.
  intros Hds return_type. split.
  - intros Hf. apply test_method_expected; auto.
    now apply has_return_value_plain.
  - intros d Hwf Ha Hs. apply test_method_expected; auto.
    now apply (has_return_value_generic _ d).
Qed.

Lemma test_method_text_witness :
  test_method "" {| Method.name := "Save"; Method.params := ["int"; "string[]"];
                    Method.return_type := "T ask"; Method.is_async := true |}
  = Some ("        [Fact]" ++ Py.newline
          ++ "        public async Task Save_ShouldWorkWithDefaults()" ++ Py.newline
          ++ "        {" ++ Py.newline
          ++ "            // Act" ++ Py.newline
          ++ "            await target.Save(0, new string[] { " ++ Py.dquote
          ++ Py.dquote ++ " });" ++ Py.newline
          ++ Py.newline ++ Py.newline
          ++ "            // Assert" ++ Py.newline
          ++ "            // TODO: Add assertions for side effects" ++ Py.newline
          ++ "        }" ++ Py.newline)
  /\ test_method "" {| Method.name := "Load"; Method.params := [];
                       Method.return_type := "Task <int>"; Method.is_async := false |}
     = Some ("        [Fact]" ++ Py.newline
             ++ "        public void Load_ShouldWorkWithDefaults()" ++ Py.newline
             ++ "        {" ++ Py.newline
             ++ "            // Act" ++ Py.newline
             ++ "            var actual = target.Load();" ++ Py.newline
             ++ Py.newline ++ Py.newline
             ++ "            // Assert" ++ Py.newline
             ++ "            Assert.NotNull(actual);  // TODO: Refine expected value"
             ++ Py.newline
             ++ "        }" ++ Py.newline).
Proof.
  split.
  - refine (eq_trans
              (proj1 (test_method_text ""
                        {| Method.name := "Save"; Method.params := ["int"; "string[]"];
                           Method.return_type := "T ask"; Method.is_async := true |}
                        ["0"; "new string[] { " ++ Py.dquote ++ Py.dquote ++ " }"] _)
                     _) _);
      vm_compute; reflexivity.
  - refine (eq_trans
              (proj2 (test_method_text ""
                        {| Method.name := "Load"; Method.params := [];
                           Method.return_type := "Task <int>"; Method.is_async := false |}
                        [] _)
                     (TD "Task" [TD "int" []]) _ _ _) _);
      try (vm_compute; reflexivity). discriminate.
Defined.

(** ** Unrecognised generic bases and mock names *)

Lemma first_match_miss (patterns : list (string * string)) (t : string) :
  (forall lit, In lit (map fst patterns) -> Py.re_search_anchored lit t = false) ->
  first_match patterns t = "null".
Proof.
  induction patterns as [|[lit value] rest IH]; simpl; intros H; auto.
  rewrite (H lit) by auto. apply IH. intros l Hl. apply H. auto.
Qed.

(** X15. A generic type that is not an array and whose base is no known
    container gets the null sentinel whenever its base, lower-cased, is
    not one of the names of the primitive table, alone or followed by a
    newline. *)
Theorem other_generic_is_null (type_name base : string)
        (generics : list TypeDescriptor) :
  let type_str := Py.remove_spaces (Py.strip type_name) in
  Py.endswith type_str "[]" = false ->
  parse_generic_type type_str = Some (TD base generics) ->
  ~ In (Py.lower base) known_list_bases ->
  Py.lower base <> "dictionary" -> Py.lower base <> "task" ->
  (forall lit, In lit primitive_names ->
               Py.lower base <> lit /\ Py.lower base <> lit ++ Py.newline) ->
  infer_dummy_value type_name = Some "null".
Proof.
  intros type_str He Hp Hl Hd Ht Hn.
  rewrite (infer_other_generic type_name base generics He Hp); auto.
  - f_equal. apply first_match_miss. intros lit Hlit.
    destruct (Hn lit Hlit) as [H1 H2]. unfold Py.re_search_anchored.
    apply String.eqb_neq in H1, H2. now rewrite H1, H2.
  - destruct (existsb (String.eqb (Py.lower base)) known_list_bases) eqn:E; auto.
    apply existsb_exists in E as (x & Hx & Ex). apply String.eqb_eq in Ex.
    subst x. contradiction.
Qed.

Lemma other_generic_is_null_witness :
  infer_dummy_value "Repository<Order>" = Some "null".
Proof.
  apply (other_generic_is_null "Repository<Order>" "Repository" [TD "Order" []]).
  - vm_compute. reflexivity.
  - vm_compute. reflexivity.
  - vm_compute. intuition discriminate.
  - vm_compute. discriminate.
  - vm_compute. discriminate.
  - intros lit Hlit. vm_compute in Hlit.
    repeat (destruct Hlit as [<-|Hlit]; [split; vm_compute; discriminate|]).
    destruct Hlit.
Defined.

Lemma str_app_inv_head (a b c : string) : a ++ b = a ++ c -> b = c.
Proof. induction a as [|x a IH]; simpl; intros H; auto. inversion H; auto. Qed.

Lemma to_uint_not_nil (n : nat) : Nat.to_uint n <> Decimal.Nil.
Proof.
  intros H. pose proof (DecimalNat.Unsigned.of_to n) as E.
  rewrite H in E. simpl in E. subst n. discriminate H.
Qed.

(** X16. The names of the mock variables are one per position: two
    positions with the same variable name are the same position, so the
    declarations of one arrange block never clash. *)
Theorem mock_var_injective (i j : nat) : mock_var i = mock_var j -> i = j.
Proof.
  unfold mock_var, Py.str_of_nat. intros H. apply str_app_inv_head in H.
  apply (f_equal NilZero.uint_of_string) in H.
  rewrite !NilZero.usu in H.
  - inversion H as [E]. now apply DecimalNat.Unsigned.to_uint_inj.
  - apply to_uint_not_nil.
  - apply to_uint_not_nil.
Qed.

Lemma mock_var_injective_witness : 12 = 12.
Proof. apply (mock_var_injective 12 12). reflexivity. Defined.
